(** * Soren plugin SDK (pysdk): subject registry, configuration, plugin
    registrar, job progress reporter and event logger.

  A shallow embedding of [pysdk/sorenv.py], [pysdk/plugin.py],
  [pysdk/events.py] and [pysdk/models], and the properties of the
  routing and request/response layer proved over it. *)

From stdpp Require Import base strings list gmap pretty.

Set Warnings "-register-all".

(** ** Python values used by the SDK *)

Module Py.

(** [Optional[str]]: [None] is Python's [None]. *)
Definition truthy_str (o : option string) : bool :=
  match o with
  | None => false
  | Some "" => false
  | Some _ => true
  end.

(** [a or b] on optional strings. *)
Definition or_str (a b : option string) : option string :=
  if truthy_str a then a else b.

(** [f"{x}"] of an [Optional[str]]. *)
Definition fmt (o : option string) : string :=
  match o with
  | Some s => s
  | None => "None"
  end.

(** The exceptions that occur in the SDK.  All of them derive from
    [Exception].  [NatsError] is the transport library's own
    [nats.errors.Error]. *)
Inductive exn : Type :=
| ValueError (msg : string)
| NoRespondersError
| TimeoutError
| JSONDecodeError
| UnicodeDecodeError
| AttributeError
| TypeError
| NatsError (msg : string)
| OtherError (msg : string).

Definition is_NoRespondersError (e : exn) : bool :=
  match e with NoRespondersError => true | _ => false end.

Definition is_JSONDecodeError (e : exn) : bool :=
  match e with JSONDecodeError => true | _ => false end.

(** The outcome of a call: a value, or a raised exception. *)
Inductive res (A : Type) : Type :=
| Ok (a : A)
| Raised (e : exn).
Arguments Ok {A} a.
Arguments Raised {A} e.

End Py.
Export Py.

(** ** pysdk/sorenv.py *)

Module Sorenv.

Record Config : Type := mkConfig {
  agent_uri : option string;
  plugin_id : option string;
  auth_key : option string;
  event_channel : option string;
  store_channel : option string
}.

(** [os.getenv] over the process environment. *)
Definition getenv (environ : gmap string string) (k : string) : option string :=
  environ !! k.

(** [Config.__init__]: every argument defaults to [None]. *)
Definition Config_init (environ : gmap string string)
    (agent_uri plugin_id auth_key event_channel store_channel : option string)
    : Config :=
  {| agent_uri := or_str agent_uri (getenv environ "AGENT_URI");
     plugin_id := or_str plugin_id (getenv environ "PLUGIN_ID");
     auth_key := or_str auth_key (getenv environ "SOREN_AUTH_KEY");
     event_channel := or_str event_channel (getenv environ "SOREN_EVENT_CHANNEL");
     store_channel := or_str store_channel (getenv environ "SOREN_STORE") |}.

(** The SDK object; the connection itself lives in the transport model. *)
Record SorenSDK : Type := mkSDK {
  config : Config;
  _closed : bool
}.

(** [SorenSDK.__init__] *)
Definition SorenSDK_init (cfg : Config) : res SorenSDK :=
  if negb (truthy_str (agent_uri cfg)) then Raised (ValueError "agent URI is required")
  else if negb (truthy_str (plugin_id cfg)) then Raised (ValueError "plugin ID is required")
  else Ok {| config := cfg; _closed := false |}.

(** [NewFromEnv] *)
Definition NewFromEnv (environ : gmap string string) : res SorenSDK :=
  SorenSDK_init (Config_init environ None None None None None).

Definition get_plugin_id (sdk : SorenSDK) : option string :=
  plugin_id (config sdk).

Definition make_subject (sdk : SorenSDK) (action : string) : string :=
  "soren.v2." +:+ fmt (plugin_id (config sdk)) +:+ "." +:+ action.

Definition make_settings_subject (sdk : SorenSDK) : string :=
  "soren.v2." +:+ fmt (plugin_id (config sdk)) +:+ ".@settings".

Definition make_actions_list_subject (sdk : SorenSDK) : string :=
  "soren.v2." +:+ fmt (plugin_id (config sdk)) +:+ ".@actions".

Definition make_intro_subject (sdk : SorenSDK) : string :=
  "soren.v2." +:+ fmt (plugin_id (config sdk)) +:+ ".@intro".

Definition make_action_cpu (sdk : SorenSDK) (action : string) : string :=
  "soren.cpu." +:+ fmt (plugin_id (config sdk)) +:+ "." +:+ action.

Definition make_job_subject (sdk : SorenSDK) (job_id job_update : string) : string :=
  "soren.cpu." +:+ fmt (plugin_id (config sdk)) +:+ "." +:+ job_id +:+ "." +:+ job_update.

Definition make_form_subject (sdk : SorenSDK) (action : string) : string :=
  "soren.v2." +:+ fmt (plugin_id (config sdk)) +:+ "." +:+ action +:+ ".@form".

Definition make_progress_subject (sdk : SorenSDK) (job_id : string) : string :=
  "soren.cpu." +:+ fmt (plugin_id (config sdk)) +:+ "." +:+ job_id +:+ ".*".

End Sorenv.
Export Sorenv.

(** ** JSON values, as [json.dumps] takes them and [json.loads] yields them

    The payloads the SDK passes through ([jsonui], [jsonschema],
    [details], [data], handler results that are dicts) are values of
    this type: what [json.dumps] serialises.  A Python object outside
    it makes [json.dumps] raise [TypeError] where the SDK calls it,
    which in [progress], [send_event] and [send_multiple_events] is
    before their [try].  The event logger takes its events with such
    objects in them ([AnyPluginEvent]); the plugin's declarations and
    the job progress are taken with payloads of this type. *)

Module Json.

Inductive json : Type :=
| JNull
| JBool (b : bool)
| JInt (z : Z)
| JStr (s : string)
| JList (l : list json)
| JDict (d : list (string * json)).

(** A Python [dict] with string keys, in insertion order. *)
Abbreviation pydict := (list (string * json)).

(** [d.get(k)] *)
Fixpoint dict_get (d : pydict) (k : string) : option json :=
  match d with
  | [] => None
  | (k', v) :: d' => if String.eqb k' k then Some v else dict_get d' k
  end.

(** [bool(d)] of an [Optional[Dict]]: [None] and the empty dict are false. *)
Definition truthy_dict (o : option pydict) : bool :=
  match o with
  | None | Some [] => false
  | Some _ => true
  end.

(** [x.get(k)] on a value that came out of [json.loads]: only a dict has
    the method. *)
Definition json_get (x : json) (k : string) : res (option json) :=
  match x with
  | JDict d => Ok (dict_get d k)
  | _ => Raised AttributeError
  end.

(** [v != "OK"] *)
Definition ne_OK (v : option json) : bool :=
  match v with
  | Some (JStr s) => negb (String.eqb s "OK")
  | _ => true
  end.

(** The double quote, for literals that contain it. *)
Definition dq : string := String (Ascii.ascii_of_nat 34) "".

(** [b'{"status":"not implemented"}'] *)
Definition NOT_IMPLEMENTED : string :=
  "{" +:+ dq +:+ "status" +:+ dq +:+ ":" +:+ dq +:+ "not implemented" +:+ dq +:+ "}".

End Json.
Export Json.

(** ** pysdk/models *)

Module Models.

(** [models/types.py] *)
Inductive Command : Type := PROGRESS | STOP | CONTEXT_CURRENT | CONTEXT_PATH.

Definition Command_value (c : Command) : string :=
  match c with
  | PROGRESS => "progress"
  | STOP => "stop"
  | CONTEXT_CURRENT => "context/current"
  | CONTEXT_PATH => "context/path"
  end.

Inductive EventType : Type := LOG.

Definition EventType_value (e : EventType) : string :=
  match e with LOG => "log" end.

Inductive LogLevel : Type := DEBUG | INFO | WARN | ERROR.

Definition LogLevel_value (l : LogLevel) : string :=
  match l with
  | DEBUG => "debug"
  | INFO => "info"
  | WARN => "warn"
  | ERROR => "error"
  end.

(** A transport message ([nats.aio.msg.Msg]). *)
Record Msg : Type := mkMsg {
  subject : string;
  reply : string;
  data : string
}.

(** What a handler hands back to the dispatcher. *)
Inductive pyval : Type :=
| PyNone
| PyDict (d : pydict)
| PyOther (truth : bool) (str : string).

Definition truthy_val (v : pyval) : bool :=
  match v with
  | PyNone => false
  | PyDict [] => false
  | PyDict _ => true
  | PyOther b _ => b
  end.

(** A handler is a plain callable or an [async def]: calling it returns
    a value, returns a coroutine object (awaiting it gives a value or
    raises), or raises. *)
Inductive hresult : Type :=
| Returns (v : pyval)
| Coroutine (r : res pyval)
| Raises (e : exn).

Definition Handler : Type := Msg -> hresult.

Record Icon : Type := mkIcon {
  ref : string;
  icon : string
}.

(** [Icon()] *)
Definition Icon_default : Icon := {| ref := ""; icon := "" |}.

Module Requirements.
Record t : Type := mk {
  reply_to : string;
  jsonui : json;
  jsonschema : json;
  handler : option Handler
}.
End Requirements.

Module PluginIntro.
Record t : Type := mk {
  name : string;
  author : string;
  version : string;
  requirements : option Requirements.t
}.
End PluginIntro.

Module ActionFormBuilder.
Record t : Type := mk {
  jsonui : json;
  jsonschema : json
}.
End ActionFormBuilder.

Module Action.
Record t : Type := mk {
  method : string;
  title : string;
  description : string;
  icon : Icon;
  form : option ActionFormBuilder.t;
  request_handler : option Handler
}.
End Action.

Module Settings.
Record t : Type := mk {
  jsonui : json;
  jsonschema : json;
  reply_to : option string;
  data : option pydict;
  handler : option Handler
}.

(** The dataclass default of [reply_to]. *)
Definition reply_to_default : string := "_settings.config.submit".

(** A keyword argument of the constructor: left out, or passed (and
    then possibly [None]). *)
Inductive kwarg (A : Type) : Type :=
| Omitted
| Passed (a : A).
Arguments Omitted {A}.
Arguments Passed {A} a.

(** [Settings(jsonui=..., jsonschema=..., reply_to=..., data=..., handler=...)] *)
Definition new (jsonui jsonschema : json) (reply_to : kwarg (option string))
    (data : option pydict) (handler : option Handler) : t :=
  {| jsonui := jsonui;
     jsonschema := jsonschema;
     reply_to := match reply_to with
                 | Omitted => Some reply_to_default
                 | Passed r => r
                 end;
     data := data;
     handler := handler |}.
End Settings.

Module Frame.
Record t : Type := mk {
  title : string;
  content : string
}.
End Frame.

Module JobProgress.
Record t : Type := mk {
  progress : Z;
  frame : Frame.t;
  details : option pydict
}.
End JobProgress.

Module PluginEvent.
Record t : Type := mk {
  event : EventType;
  level : LogLevel;
  source : string;
  message : string;
  timestamp : Z;
  details : option pydict
}.
End PluginEvent.

(** A value of a [Dict[str, Any]] as a caller may pass it: one that
    [json.dumps] encodes, or an object it refuses with [TypeError] (a
    set, a datetime, ...), given by its [repr]. *)
Inductive pyany : Type :=
| Encodable (j : json)
| Unencodable (repr : string).

Abbreviation anydict := (list (string * pyany)).

(** [PluginEvent] as the dataclass allows it: [details] is an
    [Optional[Dict[str, Any]]].  [PluginEvent.t] above is the event
    whose details all have a JSON encoding. *)
Module AnyPluginEvent.
Record t : Type := mk {
  event : EventType;
  level : LogLevel;
  source : string;
  message : string;
  timestamp : Z;
  details : option anydict
}.
End AnyPluginEvent.

End Models.
Export Models.

(** ** The world the SDK runs in: transport, codec, logger *)

Module Runtime.

(** The callbacks [Plugin] binds to subjects.  The per-action ones
    capture their action ([act=action]); the others read the plugin at
    the time a message arrives. *)
Inductive Callback : Type :=
| intro_callback
| req_callback
| settings_callback
| submit_callback
| list_callback
| form_callback (act : Action.t)
| request_callback (act : Action.t).

(** Levels of the [logging] module used by [logger]. *)
Inductive Severity : Type := SevInfo | SevWarning | SevError.

(** The log lines of [pysdk/plugin.py], one constructor per call site,
    with the values the line formats. *)
Inductive LogText : Type :=
| PluginStarted (name : string)
| SubscribedIntro (subject : string)
| SubscribedRequirements (subject : string)
| SettingsCalled
| SubscribedSettings (subject : string)
| SubscribedSettingsSubmit (subject : string)
| SubscribedActionsList (subject : string)
| FormBuilderService (subject : string)
| SubscribedAction (subject : string)
| ProgressSent (text : string)
| ProgressRetry (command : Command) (attempt max_retries : nat) (e : exn)
| ProgressNoResponder (command : Command) (max_retries : nat) (e : exn)
| ProgressError (command : Command) (e : exn).

(** The [print] lines of [pysdk/events.py]. *)
Inductive PrintText : Type :=
| EventResponseWarning (many : bool) (result : option json)
| EventSendFailed (many : bool) (e : exn).

(** What the SDK does to the outside, in the order it does it. *)
Inductive Event : Type :=
| EvSubscribe (subject : string)
| EvRequest (subject payload : string) (timeout : Z)
    (headers : option (list (string * string)))
| EvFlush
| EvRespond (msg : Msg) (payload : string)
| EvSleep (secs : Z)
| EvLog (sev : Severity) (text : LogText)
| EvPrint (text : PrintText).

Record World : Type := mkWorld {
  subs : list (string * Callback);
  trace : list Event
}.

Definition World_empty : World := {| subs := []; trace := [] |}.

(** The external collaborators, taken as given: the [json] codec, UTF-8
    decoding and the connection.  The connection answers as a function
    of what has happened so far; so does the clock ([time.time()]). *)
Record Env : Type := mkEnv {
  clock : list Event -> Z;
  json_dumps : json -> string;
  json_loads : string -> option json;
  utf8_decode : string -> option string;
  on_subscribe : list Event -> string -> option exn;
  on_request : list Event -> string -> string -> res Msg;
  on_flush : list Event -> option exn
}.

(** Computations that act on the world and return or raise. *)
Definition M (A : Type) : Type := World -> res A * World.

Definition ret {A} (a : A) : M A := fun w => (Ok a, w).

Definition raise {A} (e : exn) : M A := fun w => (Raised e, w).

Definition bind {A B} (c : M A) (k : A -> M B) : M B :=
  fun w =>
    match c w with
    | (Ok a, w') => k a w'
    | (Raised e, w') => (Raised e, w')
    end.

(** [try: c  except ... as e: h e] where [h] re-raises what no clause
    catches. *)
Definition try_except {A} (c : M A) (h : exn -> M A) : M A :=
  fun w =>
    match c w with
    | (Ok a, w') => (Ok a, w')
    | (Raised e, w') => h e w'
    end.

Definition emit (ev : Event) : M unit :=
  fun w => (Ok tt, {| subs := subs w; trace := trace w ++ [ev] |}).

Definition lift {A} (r : res A) : M A := fun w => (r, w).

Notation "'let*' x := c 'in' k" := (bind c (fun x => k))
  (at level 10, x name, c at level 100, k at level 200).
Notation "c ;; k" := (bind c (fun _ => k))
  (at level 100, k at level 200, right associativity).

(** [logger.info], [logger.warning], [logger.error] and [print] *)
Definition log (sev : Severity) (text : LogText) : M unit := emit (EvLog sev text).
Definition print (text : PrintText) : M unit := emit (EvPrint text).

(** [await self.sdk.conn.subscribe(subject, cb=cb)] *)
Definition subscribe (env : Env) (subject : string) (cb : Callback) : M unit :=
  fun w =>
    let tr := trace w ++ [EvSubscribe subject] in
    match on_subscribe env (trace w) subject with
    | None => (Ok tt, {| subs := subs w ++ [(subject, cb)]; trace := tr |})
    | Some e => (Raised e, {| subs := subs w; trace := tr |})
    end.

(** [await self.sdk.conn.request(subject, payload, timeout=..., headers=...)] *)
Definition request (env : Env) (subject payload : string) (timeout : Z)
    (headers : option (list (string * string))) : M Msg :=
  fun w =>
    (on_request env (trace w) subject payload,
     {| subs := subs w; trace := trace w ++ [EvRequest subject payload timeout headers] |}).

(** [await self.sdk.conn.flush()] *)
Definition flush (env : Env) : M unit :=
  fun w =>
    (match on_flush env (trace w) with None => Ok tt | Some e => Raised e end,
     {| subs := subs w; trace := trace w ++ [EvFlush] |}).

(** [await msg.respond(payload)]: the transport library refuses a
    message that has no reply subject, before it sends anything. *)
Definition respond (msg : Msg) (payload : string) : M unit :=
  if String.eqb (reply msg) "" then raise (NatsError "no reply subject available")
  else emit (EvRespond msg payload).

(** [await asyncio.sleep(secs)] *)
Definition sleep (secs : Z) : M unit := emit (EvSleep secs).

(** [b.decode()] *)
Definition decode (env : Env) (b : string) : M string :=
  match utf8_decode env b with
  | Some s => ret s
  | None => raise UnicodeDecodeError
  end.

(** [json.loads(s)] *)
Definition loads (env : Env) (s : string) : M json :=
  match json_loads env s with
  | Some j => ret j
  | None => raise JSONDecodeError
  end.

End Runtime.
Export Runtime.

(** ** pysdk/plugin.py *)

Module Plugin.

Record t : Type := mk {
  sdk : SorenSDK;
  intro : option PluginIntro.t;
  settings : option Settings.t;
  actions : list Action.t
}.

(** [Plugin.__init__] *)
Definition init (sdk : SorenSDK) : t :=
  {| sdk := sdk; intro := None; settings := None; actions := [] |}.

(** [set_intro]: the handler is stored in the requirements object, and
    only when there is one.  (Python stores it in the caller's own
    [Requirements] object; here the plugin holds the updated copy.) *)
Definition set_intro (self : t) (intro : PluginIntro.t) (handler : option Handler) : t :=
  let intro' :=
    match PluginIntro.requirements intro, handler with
    | Some r, Some h =>
        {| PluginIntro.name := PluginIntro.name intro;
           PluginIntro.author := PluginIntro.author intro;
           PluginIntro.version := PluginIntro.version intro;
           PluginIntro.requirements :=
             Some {| Requirements.reply_to := Requirements.reply_to r;
                     Requirements.jsonui := Requirements.jsonui r;
                     Requirements.jsonschema := Requirements.jsonschema r;
                     Requirements.handler := Some h |} |}
    | _, _ => intro
    end in
  {| sdk := sdk self; intro := Some intro'; settings := settings self;
     actions := actions self |}.

(** [set_settings] *)
Definition set_settings (self : t) (settings : Settings.t) (handler : option Handler) : t :=
  let settings' :=
    match handler with
    | Some h =>
        {| Settings.jsonui := Settings.jsonui settings;
           Settings.jsonschema := Settings.jsonschema settings;
           Settings.reply_to := Settings.reply_to settings;
           Settings.data := Settings.data settings;
           Settings.handler := Some h |}
    | None => settings
    end in
  {| sdk := sdk self; intro := intro self; settings := Some settings';
     actions := actions self |}.

(** [set_actions] *)
Definition set_actions (self : t) (acts : list Action.t) : t :=
  {| sdk := sdk self; intro := intro self; settings := settings self;
     actions := acts |}.

(** [add_actions] *)
Definition add_actions (self : t) (acts : list Action.t) : t :=
  {| sdk := sdk self; intro := intro self; settings := settings self;
     actions := actions self ++ acts |}.

(** [json.dumps(result).encode() if isinstance(result, dict) else
    str(result).encode()] *)
Definition encode_result (env : Env) (v : pyval) : string :=
  match v with
  | PyDict d => json_dumps env (JDict d)
  | PyNone => "None"
  | PyOther _ s => s
  end.

(** The dispatch of a handler's result, written out in [req_callback],
    [submit_callback] and [request_callback]:
    [result = handler(msg)], then, if [result] is true, await it when
    it is a coroutine, encode it and respond. *)
Definition reply_result (env : Env) (msg : Msg) (h : Handler) : M unit :=
  match h msg with
  | Raises e => raise e
  | Returns v =>
      if truthy_val v then respond msg (encode_result env v) else ret tt
  | Coroutine r =>
      let* v := lift r in
      respond msg (encode_result env v)
  end.

Definition intro_dict (i : PluginIntro.t) : json :=
  JDict ([("name", JStr (PluginIntro.name i));
          ("author", JStr (PluginIntro.author i));
          ("version", JStr (PluginIntro.version i))]
         ++ match PluginIntro.requirements i with
            | Some r =>
                [("requirements",
                  JDict [("replyTo", JStr (Requirements.reply_to r));
                         ("jsonui", Requirements.jsonui r);
                         ("jsonschema", Requirements.jsonschema r)])]
            | None => []
            end).

Definition run_intro_callback (env : Env) (self : t) (msg : Msg) : M unit :=
  match intro self with
  | None => raise AttributeError
  | Some i => respond msg (json_dumps env (intro_dict i))
  end.

Definition run_req_callback (env : Env) (self : t) (msg : Msg) : M unit :=
  match intro self with
  | None => raise AttributeError
  | Some i =>
      match PluginIntro.requirements i with
      | None => raise AttributeError
      | Some r =>
          match Requirements.handler r with
          | Some h => reply_result env msg h
          | None => respond msg NOT_IMPLEMENTED
          end
      end
  end.

Definition settings_dict (s : Settings.t) : json :=
  let reply_to :=
    if truthy_str (Settings.reply_to s) then fmt (Settings.reply_to s)
    else "_settings.config.submit" in
  JDict ([("replyTo", JStr reply_to);
          ("jsonui", Settings.jsonui s);
          ("jsonschema", Settings.jsonschema s)]
         ++ if truthy_dict (Settings.data s)
            then [("data", JDict (default [] (Settings.data s)))]
            else []).

Definition run_settings_callback (env : Env) (self : t) (msg : Msg) : M unit :=
  log SevInfo SettingsCalled;;
  match settings self with
  | None => respond msg "null"
  | Some s => respond msg (json_dumps env (settings_dict s))
  end.

Definition run_submit_callback (env : Env) (self : t) (msg : Msg) : M unit :=
  match settings self with
  | None => raise AttributeError
  | Some s =>
      match Settings.handler s with
      | Some h => reply_result env msg h
      | None => respond msg NOT_IMPLEMENTED
      end
  end.

Definition action_dict (a : Action.t) : json :=
  JDict [("method", JStr (Action.method a));
         ("title", JStr (Action.title a));
         ("description", JStr (Action.description a));
         ("icon", JDict [("ref", JStr (ref (Action.icon a)));
                         ("icon", JStr (icon (Action.icon a)))])].

Definition run_list_callback (env : Env) (self : t) (msg : Msg) : M unit :=
  respond msg (json_dumps env (JList (map action_dict (actions self)))).

Definition run_form_callback (env : Env) (act : Action.t) (msg : Msg) : M unit :=
  match Action.form act with
  | None => respond msg "{}"
  | Some f =>
      respond msg
        (json_dumps env (JDict [("jsonui", ActionFormBuilder.jsonui f);
                                ("jsonschema", ActionFormBuilder.jsonschema f)]))
  end.

Definition run_request_callback (env : Env) (act : Action.t) (msg : Msg) : M unit :=
  match Action.request_handler act with
  | Some h => reply_result env msg h
  | None => ret tt
  end.

(** What the connection runs when a message arrives for a callback. *)
Definition run_callback (env : Env) (self : t) (cb : Callback) (msg : Msg) : M unit :=
  match cb with
  | intro_callback => run_intro_callback env self msg
  | req_callback => run_req_callback env self msg
  | settings_callback => run_settings_callback env self msg
  | submit_callback => run_submit_callback env self msg
  | list_callback => run_list_callback env self msg
  | form_callback act => run_form_callback env act msg
  | request_callback act => run_request_callback env act msg
  end.

(** [intro_handler] *)
Definition intro_handler (env : Env) (self : t) : M unit :=
  match intro self with
  | None => ret tt
  | Some i =>
      let subject := make_intro_subject (sdk self) in
      subscribe env subject intro_callback;;
      log SevInfo (SubscribedIntro subject);;
      match PluginIntro.requirements i with
      | Some r =>
          if truthy_str (Some (Requirements.reply_to r)) then
            let req_subject := make_subject (sdk self) (Requirements.reply_to r) in
            subscribe env req_subject req_callback;;
            log SevInfo (SubscribedRequirements req_subject)
          else ret tt
      | None => ret tt
      end
  end.

(** [settings_handler] *)
Definition settings_handler (env : Env) (self : t) : M unit :=
  let subject := make_settings_subject (sdk self) in
  subscribe env subject settings_callback;;
  log SevInfo (SubscribedSettings subject);;
  match settings self with
  | Some s =>
      let reply_to :=
        if truthy_str (Settings.reply_to s) then fmt (Settings.reply_to s)
        else "_settings.config.submit" in
      let submit_subject := make_subject (sdk self) reply_to in
      subscribe env submit_subject submit_callback;;
      log SevInfo (SubscribedSettingsSubmit submit_subject)
  | None => ret tt
  end.

(** The body of [for action in self.actions] in [actions_handler]. *)
Fixpoint bind_actions (env : Env) (self : t) (acts : list Action.t) : M unit :=
  match acts with
  | [] => ret tt
  | action :: rest =>
      let form_subject := make_form_subject (sdk self) (Action.method action) in
      subscribe env form_subject (form_callback action);;
      log SevInfo (FormBuilderService form_subject);;
      let cpu_subject := make_action_cpu (sdk self) (Action.method action) in
      subscribe env cpu_subject (request_callback action);;
      log SevInfo (SubscribedAction cpu_subject);;
      bind_actions env self rest
  end.

(** [actions_handler] *)
Definition actions_handler (env : Env) (self : t) : M unit :=
  let list_subject := make_actions_list_subject (sdk self) in
  subscribe env list_subject list_callback;;
  log SevInfo (SubscribedActionsList list_subject);;
  bind_actions env self (actions self).

(** [start] *)
Definition start (env : Env) (self : t) : M unit :=
  intro_handler env self;;
  settings_handler env self;;
  actions_handler env self;;
  log SevInfo
    (PluginStarted match intro self with
                   | Some i => PluginIntro.name i
                   | None => "Unknown"
                   end).

(** What [progress] returns: the response, the exception it caught, or
    (were the loop to run out) nothing. *)
Inductive progress_ret : Type :=
| RetMsg (m : Msg)
| RetExc (e : exn)
| RetNone.

Definition data_dict (d : JobProgress.t) : json :=
  JDict ([("progress", JInt (JobProgress.progress d));
          ("frame", JDict [("title", JStr (Frame.title (JobProgress.frame d)));
                           ("content", JStr (Frame.content (JobProgress.frame d)))])]
         ++ if truthy_dict (JobProgress.details d)
            then [("details", JDict (default [] (JobProgress.details d)))]
            else []).

(** [for attempt in range(max_retries)] of [progress], over the
    attempts still to make. *)
Fixpoint progress_loop (env : Env) (sub data_bytes : string) (command : Command)
    (max_retries : nat) (attempts : list nat) : M progress_ret :=
  match attempts with
  | [] => ret RetNone
  | attempt :: rest =>
      try_except
        (let* msg := request env sub data_bytes 3 None in
         flush env;;
         let* text :=
           (if String.eqb (data msg) "" then ret "No response"
            else decode env (data msg)) in
         log SevInfo (ProgressSent text);;
         ret (RetMsg msg))
        (fun e =>
           if is_NoRespondersError e then
             if attempt <? max_retries - 1 then
               (if 1 <=? attempt
                then log SevWarning (ProgressRetry command attempt (max_retries - 1) e)
                else ret tt);;
               sleep 1;;
               progress_loop env sub data_bytes command max_retries rest
             else
               log SevError (ProgressNoResponder command max_retries e);;
               ret (RetExc e)
           else
             log SevError (ProgressError command e);;
             ret (RetExc e))
  end.

(** [progress] *)
Definition progress (env : Env) (self : t) (job_id : string) (command : Command)
    (data : JobProgress.t) : M progress_ret :=
  let sub := make_job_subject (sdk self) job_id (Command_value command) in
  let data_bytes := json_dumps env (data_dict data) in
  let max_retries := 3 in
  progress_loop env sub data_bytes command max_retries (seq 0 max_retries).

(** [done] *)
Definition done (env : Env) (self : t) (job_id : string) (data : pydict) : M progress_ret :=
  progress env self job_id PROGRESS
    {| JobProgress.progress := 100;
       JobProgress.frame := {| Frame.title := "Completed";
                               Frame.content := "Job completed successfully" |};
       JobProgress.details := Some data |}.

End Plugin.

(** ** pysdk/events.py *)

Module EventLogger.

Record t : Type := mk { sdk : SorenSDK }.

Definition event_dict (event : PluginEvent.t) : json :=
  JDict ([("event", JStr (EventType_value (PluginEvent.event event)));
          ("level", JStr (LogLevel_value (PluginEvent.level event)));
          ("source", JStr (PluginEvent.source event));
          ("message", JStr (PluginEvent.message event));
          ("timestamp", JInt (PluginEvent.timestamp event))]
         ++ if truthy_dict (PluginEvent.details event)
            then [("details", JDict (default [] (PluginEvent.details event)))]
            else []).

(** The request both [send_event] and [send_multiple_events] make once
    the body is built, and what they do with the answer; [many] tells
    the two apart in the printed lines. *)
Definition post_events (env : Env) (self : t) (many : bool) (body : string) : M unit :=
  let cfg := config (sdk self) in
  let subject := fmt (event_channel cfg) +:+ "." +:+ fmt (plugin_id cfg) +:+ ".log" in
  let headers :=
    if truthy_str (auth_key cfg) then Some [("Authorization", fmt (auth_key cfg))]
    else None in
  try_except
    (let* resp := request env subject body 3 headers in
     if String.eqb (data resp) "" then ret tt
     else
       try_except
         (let* text := decode env (data resp) in
          let* response := loads env text in
          let* result := lift (json_get response "result") in
          if ne_OK result then print (EventResponseWarning many result) else ret tt)
         (fun e => if is_JSONDecodeError e then ret tt else raise e))
    (fun e => print (EventSendFailed many e)).

(** The details of an event as JSON, when every value has an
    encoding. *)
Definition encodable_details (d : option anydict) : option (option pydict) :=
  match d with
  | None => Some None
  | Some d =>
      Some <$> mapM (fun kv : string * pyany =>
                       match kv.2 with
                       | Encodable j => Some (kv.1, j)
                       | Unencodable _ => None
                       end) d
  end.

Definition encodable (event : AnyPluginEvent.t) : option PluginEvent.t :=
  d ← encodable_details (AnyPluginEvent.details event);
  Some {| PluginEvent.event := AnyPluginEvent.event event;
          PluginEvent.level := AnyPluginEvent.level event;
          PluginEvent.source := AnyPluginEvent.source event;
          PluginEvent.message := AnyPluginEvent.message event;
          PluginEvent.timestamp := AnyPluginEvent.timestamp event;
          PluginEvent.details := d |}.

(** [json.dumps(events_list).encode()] of the dicts built from the
    events: [TypeError] when a detail has no encoding. *)
Definition dumps_events (env : Env) (events : list AnyPluginEvent.t) : M string :=
  match mapM encodable events with
  | Some events' => ret (json_dumps env (JList (map event_dict events')))
  | None => raise TypeError
  end.

(** [send_event] *)
Definition send_event (env : Env) (self : t) (event : AnyPluginEvent.t) : M unit :=
  if negb (truthy_str (event_channel (config (sdk self)))) then ret tt
  else
    let* body := dumps_events env [event] in
    post_events env self false body.


(** [log] *)
Definition log (env : Env) (self : t) (source : string) (level : LogLevel)
    (message : string) (details : option anydict) : M unit :=
  fun w =>
    send_event env self
      {| AnyPluginEvent.event := LOG;
         AnyPluginEvent.level := level;
         AnyPluginEvent.source := fmt (plugin_id (config (sdk self))) +:+ " - " +:+ source;
         AnyPluginEvent.message := message;
         AnyPluginEvent.timestamp := clock env (trace w);
         AnyPluginEvent.details := details |} w.

(** [emit_event] *)
Definition emit_event (env : Env) (self : t) (event_type : EventType)
    (data : option anydict) : M unit :=
  fun w =>
    send_event env self
      {| AnyPluginEvent.event := event_type;
         AnyPluginEvent.level := INFO;
         AnyPluginEvent.source := fmt (plugin_id (config (sdk self)));
         AnyPluginEvent.message := "Event: " +:+ EventType_value event_type;
         AnyPluginEvent.timestamp := clock env (trace w);
         AnyPluginEvent.details := data |} w.

End EventLogger.

(** ** The transport session of [pysdk/sorenv.py]: [connect] and [close] *)

Module Session.

(** The client object ([nats.aio.client.Client]) as [connect] and
    [close] look at it. *)
Record Conn : Type := mkConn {
  conn_uri : string;
  is_closed : bool;
  is_connected : bool
}.

(** What [asyncio.wait_for(nats.connect(uri, connect_timeout=5),
    timeout=10)] comes to: a client, [asyncio.TimeoutError], or another
    exception (with its text). *)
Inductive dial : Type :=
| Dialled (connected : bool)
| DialTimeout
| DialRaised (text : string).

(** What the session does to the outside: its printed lines and its
    calls to the transport library. *)
Inductive Output : Type :=
| PrintConnecting (uri : string)
| PrintConnected (uri : string)
| PrintNotConnected
| PrintError (msg : string)
| CallConnect (uri : string) (connect_timeout timeout : Z)
| CallClose (uri : string).

(** The SDK object with its [conn] attribute, and what it has done. *)
Record t : Type := mk {
  sdk : SorenSDK;
  conn : option Conn;
  out : list Output
}.

(** [SorenSDK.__init__] leaves [conn] at [None]. *)
Definition init (sdk : SorenSDK) : t := {| sdk := sdk; conn := None; out := [] |}.

(** What [connect] comes to: it returns [self.conn] or raises. *)
Inductive connect_result : Type :=
| Returned (c : Conn)
| RaisedConnectionError (msg : string)
| RaisedAttributeError.

(** [uri.startswith(('nats://', 'tls://', 'ws://', 'wss://'))] *)
Definition has_scheme (uri : string) : bool :=
  String.prefix "nats://" uri || String.prefix "tls://" uri
  || String.prefix "ws://" uri || String.prefix "wss://" uri.

(** The URI [connect] hands to the transport library. *)
Definition dial_uri (uri : string) : string :=
  if has_scheme uri then uri else "nats://" +:+ uri.

(** The body of [if self.conn is None or self.conn.is_closed:] in
    [connect], on a network that answers a call to [nats.connect] as
    [net] says, followed by [return self.conn]. *)
Definition dial_and_return (net : list Output -> string -> dial) (self : t)
    : connect_result * t :=
  match agent_uri (config (sdk self)) with
  | None => (RaisedAttributeError, self)
  | Some agent =>
      let uri := dial_uri agent in
      let out1 := out self ++ [PrintConnecting uri; CallConnect uri 5 10] in
      match net (out self ++ [PrintConnecting uri]) uri with
      | Dialled connected =>
          let c' := {| conn_uri := uri; is_closed := false;
                       is_connected := connected |} in
          (Returned c',
           {| sdk := sdk self; conn := Some c';
              out := out1 ++ [if connected then PrintConnected uri
                              else PrintNotConnected] |})
      | DialTimeout =>
          let error_msg :=
            "Connection timeout: Failed to connect to NATS at " +:+ uri
            +:+ " within 10 seconds" in
          (RaisedConnectionError error_msg,
           {| sdk := sdk self; conn := conn self;
              out := out1 ++ [PrintError error_msg] |})
      | DialRaised text =>
          let error_msg :=
            "Failed to connect to NATS at " +:+ uri +:+ ": " +:+ text in
          (RaisedConnectionError error_msg,
           {| sdk := sdk self; conn := conn self;
              out := out1 ++ [PrintError error_msg] |})
      end
  end.

(** [connect] *)
Definition connect (net : list Output -> string -> dial) (self : t)
    : connect_result * t :=
  match conn self with
  | None => dial_and_return net self
  | Some c => if is_closed c then dial_and_return net self else (Returned c, self)
  end.

(** [close]: the client's own [close()] leaves it closed and not
    connected. *)
Definition close (self : t) : t :=
  let self1 :=
    match conn self with
    | Some c =>
        if negb (is_closed c) then
          {| sdk := sdk self;
             conn := Some {| conn_uri := conn_uri c; is_closed := true;
                             is_connected := false |};
             out := out self ++ [CallClose (conn_uri c)] |}
        else self
    | None => self
    end in
  {| sdk := {| config := config (sdk self1); _closed := true |};
     conn := conn self1;
     out := out self1 |}.

(** [get_connection] *)
Definition get_connection (self : t) : option Conn := conn self.

End Session.

(** ** Sample worlds *)

Module Samples.

(** A sample SDK object, as [SorenSDK(Config(agent_uri="nats://agent:4222",
    plugin_id="abc"))] builds it in an empty environment. *)
Definition sdk_abc : SorenSDK :=
  {| config := Config_init ∅ (Some "nats://agent:4222") (Some "abc") None None None;
     _closed := false |}.

(** An environment that names the agent but not the plugin. *)
Definition environ_no_id : gmap string string :=
  {[ "AGENT_URI" := "nats://agent:4222" ]}.

(** A small renderer standing for [json.dumps] in the examples (no
    escaping, compact integers through [pretty]). *)
Fixpoint render (j : json) : string :=
  match j with
  | JNull => "null"
  | JBool true => "true"
  | JBool false => "false"
  | JInt z => pretty z
  | JStr s => dq +:+ s +:+ dq
  | JList l =>
      "[" +:+ (fix items (l : list json) : string :=
                 match l with
                 | [] => ""
                 | [x] => render x
                 | x :: l' => render x +:+ ", " +:+ items l'
                 end) l +:+ "]"
  | JDict d =>
      "{" +:+ (fix fields (d : list (string * json)) : string :=
                 match d with
                 | [] => ""
                 | [(k, v)] => dq +:+ k +:+ dq +:+ ": " +:+ render v
                 | (k, v) :: d' =>
                     dq +:+ k +:+ dq +:+ ": " +:+ render v +:+ ", " +:+ fields d'
                 end) d +:+ "}"
  end.

(** A connection on which everything succeeds and every request is
    acknowledged. *)
Definition env_ok : Env :=
  {| clock := fun _ => 1700000000%Z;
     json_dumps := render;
     json_loads := fun _ => None;
     utf8_decode := Some;
     on_subscribe := fun _ _ => None;
     on_request := fun _ subject _ => Ok {| subject := subject; reply := ""; data := "ack" |};
     on_flush := fun _ => None |}.

(** A connection on which nobody answers a request. *)
Definition env_no_responders : Env :=
  {| clock := fun _ => 1700000000%Z;
     json_dumps := render;
     json_loads := fun _ => None;
     utf8_decode := Some;
     on_subscribe := fun _ _ => None;
     on_request := fun _ _ _ => Raised NoRespondersError;
     on_flush := fun _ => None |}.

(** A connection that refuses the subscription to the intro subject of
    plugin [abc] and accepts every other one. *)
Definition env_intro_refused : Env :=
  {| clock := fun _ => 1700000000%Z;
     json_dumps := render;
     json_loads := fun _ => None;
     utf8_decode := Some;
     on_subscribe := fun _ subject =>
       if String.eqb subject "soren.v2.abc.@intro"
       then Some (OtherError "subscribe refused") else None;
     on_request := fun _ subject _ => Ok {| subject := subject; reply := ""; data := "ack" |};
     on_flush := fun _ => None |}.

Definition plugin_abc : Plugin.t := Plugin.init sdk_abc.

(** The declarations of the example plugin ([main_test.py]), cut down. *)
Definition sample_handler : Handler :=
  fun _ => Coroutine (Ok (PyDict [("status", JStr "accepted")])).

Definition intro_plain : PluginIntro.t :=
  {| PluginIntro.name := "Code Analysis Plugin";
     PluginIntro.author := "Soren Team";
     PluginIntro.version := "1.1.1";
     PluginIntro.requirements := None |}.

Definition requirements_form : Requirements.t :=
  {| Requirements.reply_to := "requirements.submit";
     Requirements.jsonui := JDict [("type", JStr "Control")];
     Requirements.jsonschema := JDict [("type", JStr "object")];
     Requirements.handler := None |}.

Definition intro_with_requirements : PluginIntro.t :=
  {| PluginIntro.name := "Code Analysis Plugin";
     PluginIntro.author := "Soren Team";
     PluginIntro.version := "1.1.1";
     PluginIntro.requirements := Some requirements_form |}.

Definition settings_form : Settings.t :=
  Settings.new (JDict [("type", JStr "VerticalLayout")]) (JDict [("type", JStr "object")])
    Settings.Omitted None None.

Definition action_prepare : Action.t :=
  {| Action.method := "prepare";
     Action.title := "Clone/Pull Repo";
     Action.description := "";
     Action.icon := Icon_default;
     Action.form := None;
     Action.request_handler := Some sample_handler |}.

Definition plugin_full : Plugin.t :=
  Plugin.add_actions
    (Plugin.set_settings (Plugin.set_intro plugin_abc intro_plain None)
       settings_form (Some sample_handler))
    [action_prepare].

(** A plugin whose intro has no requirements, given a handler all the
    same. *)
Definition plugin_handler_dropped : Plugin.t :=
  Plugin.set_intro plugin_abc intro_plain (Some sample_handler).

Definition half_way : JobProgress.t :=
  {| JobProgress.progress := 50;
     JobProgress.frame := {| Frame.title := "T"; Frame.content := "C" |};
     JobProgress.details := None |}.



(** An event whose details hold a set, [{"seen": {1, 2}}]. *)
Definition event_with_set : AnyPluginEvent.t :=
  {| AnyPluginEvent.event := LOG;
     AnyPluginEvent.level := INFO;
     AnyPluginEvent.source := "abc - remote-mate-pc";
     AnyPluginEvent.message := "start plugin";
     AnyPluginEvent.timestamp := 1700000000;
     AnyPluginEvent.details := Some [("seen", Unencodable "{1, 2}")] |}.

(** An SDK with an event channel, and a logger on it. *)
Definition logger_abc : EventLogger.t :=
  {| EventLogger.sdk :=
       {| config := Config_init ∅ (Some "nats://agent:4222") (Some "abc")
                      (Some "secret") (Some "events") None;
          _closed := false |} |}.

(** A logger with no event channel. *)
Definition logger_silent : EventLogger.t := {| EventLogger.sdk := sdk_abc |}.

(** Networks: one on which the agent answers, one on which the dial
    times out. *)
Definition net_up : list Session.Output -> string -> Session.dial :=
  fun _ _ => Session.Dialled true.

Definition net_down : list Session.Output -> string -> Session.dial :=
  fun _ _ => Session.DialTimeout.

(** A session on an SDK whose agent URI carries no scheme. *)
Definition session_bare : Session.t :=
  Session.init
    {| config := Config_init ∅ (Some "agent:4222") (Some "abc") None None None;
       _closed := false |}.

(** An [async def] handler that returns nothing, and an action with
    it; an action with no handler. *)
Definition handler_async_none : Handler := fun _ => Coroutine (Ok PyNone).

Definition action_async_none : Action.t :=
  {| Action.method := "scan.gen.graph";
     Action.title := "Scan Code And Create Graph";
     Action.description := "";
     Action.icon := Icon_default;
     Action.form := None;
     Action.request_handler := Some handler_async_none |}.

Definition action_no_handler : Action.t :=
  {| Action.method := "noop";
     Action.title := "No handler";
     Action.description := "";
     Action.icon := Icon_default;
     Action.form := None;
     Action.request_handler := None |}.

Definition execute_msg : Msg :=
  {| subject := "soren.cpu.abc.scan.gen.graph"; reply := "_INBOX.1"; data := "{}" |}.

(** A connection on which every request times out. *)
Definition env_timeout : Env :=
  {| clock := fun _ => 1700000000%Z;
     json_dumps := render;
     json_loads := fun _ => None;
     utf8_decode := Some;
     on_subscribe := fun _ _ => None;
     on_request := fun _ _ _ => Raised TimeoutError;
     on_flush := fun _ => None |}.

(** A connection on which the first request of a run finds nobody and
    the later ones are acknowledged. *)
Definition env_late_responder : Env :=
  {| clock := fun _ => 1700000000%Z;
     json_dumps := render;
     json_loads := fun _ => None;
     utf8_decode := Some;
     on_subscribe := fun _ _ => None;
     on_request := fun tr subject _ =>
       match tr with
       | [] => Raised NoRespondersError
       | _ :: _ => Ok {| subject := subject; reply := ""; data := "ack" |}
       end;
     on_flush := fun _ => None |}.

(** A connection whose acknowledgements are not text. *)
Definition env_binary_ack : Env :=
  {| clock := fun _ => 1700000000%Z;
     json_dumps := render;
     json_loads := fun _ => None;
     utf8_decode := fun _ => None;
     on_subscribe := fun _ _ => None;
     on_request := fun _ subject _ => Ok {| subject := subject; reply := ""; data := "ack" |};
     on_flush := fun _ => None |}.

End Samples.
Export Samples.

(** ** Vocabulary of the statements *)

Module Spec.

(** A value is supplied when it is a string and not the empty one. *)
Definition supplied (o : option string) : Prop :=
  exists s, o = Some s /\ s ≠ "".

(** The subjects [subscribe] was called with, in order, whether or not
    the call succeeded. *)
Definition subscribes (tr : list Event) : list string :=
  omap (fun ev => match ev with EvSubscribe s => Some s | _ => None end) tr.

(** The payloads of the replies sent. *)
Definition replies (tr : list Event) : list string :=
  omap (fun ev => match ev with EvRespond _ payload => Some payload | _ => None end) tr.

(** The subject a settings form is submitted on: the form's [reply_to],
    or the fixed default when that is unset or empty. *)
Definition resolved_reply_to (s : Settings.t) : string :=
  match Settings.reply_to s with
  | None | Some "" => "_settings.config.submit"
  | Some r => r
  end.

(** A field of a JSON object. *)
Definition json_field (j : json) (k : string) : option json :=
  match j with
  | JDict d => dict_get d k
  | _ => None
  end.

(** The subscriptions of the three bind phases of [start], in order. *)
Definition intro_binds (self : Plugin.t) : list (string * Callback) :=
  match Plugin.intro self with
  | None => []
  | Some i =>
      (make_intro_subject (Plugin.sdk self), intro_callback)
      :: match PluginIntro.requirements i with
         | Some r =>
             if String.eqb (Requirements.reply_to r) "" then []
             else [(make_subject (Plugin.sdk self) (Requirements.reply_to r), req_callback)]
         | None => []
         end
  end.

Definition settings_binds (self : Plugin.t) : list (string * Callback) :=
  (make_settings_subject (Plugin.sdk self), settings_callback)
  :: match Plugin.settings self with
     | Some s => [(make_subject (Plugin.sdk self) (resolved_reply_to s), submit_callback)]
     | None => []
     end.

Definition action_binds (self : Plugin.t) (a : Action.t) : list (string * Callback) :=
  [(make_form_subject (Plugin.sdk self) (Action.method a), form_callback a);
   (make_action_cpu (Plugin.sdk self) (Action.method a), request_callback a)].

Definition actions_binds (self : Plugin.t) : list (string * Callback) :=
  (make_actions_list_subject (Plugin.sdk self), list_callback)
  :: flat_map (action_binds self) (Plugin.actions self).

Definition start_binds (self : Plugin.t) : list (string * Callback) :=
  intro_binds self ++ settings_binds self ++ actions_binds self.

(** The outcome [out] of a computation started in [w] that is to make
    the subscriptions [items]: either it returns, having made them all
    in order, or it raises the exception of the first subscription the
    connection refused, having made the ones before it and attempted
    none after it. *)
Definition stops_at (env : Env) (items : list (string * Callback)) (w : World)
    (out : res unit * World) : Prop :=
  match out.1 with
  | Ok _ =>
      subscribes (trace out.2) = subscribes (trace w) ++ items.*1 /\
      subs out.2 = subs w ++ items
  | Raised e =>
      exists bound s cb rest,
        items = bound ++ (s, cb) :: rest /\
        subscribes (trace out.2) = subscribes (trace w) ++ bound.*1 ++ [s] /\
        subs out.2 = subs w ++ bound /\
        exists tr, on_subscribe env tr s = Some e
  end.

Definition binds (env : Env) (items : list (string * Callback)) (c : M unit) : Prop :=
  forall w, stops_at env items w (c w).

(** What the connection does with an inbound message: it runs, in the
    order they were bound, the callbacks subscribed to the message's
    subject (subjects are matched literally here). *)
Fixpoint dispatch (env : Env) (self : Plugin.t) (bound : list (string * Callback))
    (msg : Msg) : M unit :=
  match bound with
  | [] => ret tt
  | (s, cb) :: rest =>
      (if String.eqb s (subject msg) then Plugin.run_callback env self cb msg else ret tt);;
      dispatch env self rest msg
  end.

Definition deliver (env : Env) (self : Plugin.t) (msg : Msg) : M unit :=
  fun w => dispatch env self (subs w) msg w.

(** For each request of a trace, in order, the levels of the log lines
    written after it and before the next request. *)
Fixpoint log_segments (tr : list Event) : list Severity * list (list Severity) :=
  match tr with
  | [] => ([], [])
  | EvRequest _ _ _ _ :: tr' =>
      let '(cur, segs) := log_segments tr' in ([], cur :: segs)
  | EvLog sev _ :: tr' =>
      let '(cur, segs) := log_segments tr' in (sev :: cur, segs)
  | _ :: tr' => log_segments tr'
  end.

Definition attempt_logs (tr : list Event) : list (list Severity) :=
  (log_segments tr).2.

(** The delays of a trace, in order. *)
Definition sleeps (tr : list Event) : list Z :=
  omap (fun ev => match ev with EvSleep n => Some n | _ => None end) tr.

(** The requests of a trace, in order: subject, payload, timeout. *)
Definition requests (tr : list Event) : list (string * string * Z) :=
  omap (fun ev => match ev with
                  | EvRequest s b t _ => Some (s, b, t)
                  | _ => None
                  end) tr.

(** A computation only ever adds to the trace. *)
Definition extends {A} (c : M A) : Prop :=
  forall w, exists tr', trace (c w).2 = trace w ++ tr'.

(** A computation returns, whatever the world does. *)
Definition never_raises (c : M unit) : Prop :=
  forall w, exists w', c w = (Ok tt, w').

(** The URIs the session dialled, in order. *)
Definition dials (o : list Session.Output) : list string :=
  omap (fun x => match x with Session.CallConnect uri _ _ => Some uri | _ => None end) o.

(** The connections the session closed, in order. *)
Definition closes (o : list Session.Output) : list string :=
  omap (fun x => match x with Session.CallClose uri => Some uri | _ => None end) o.

(** A session holds a live connection. *)
Definition live (s : Session.t) : Prop :=
  exists c, Session.conn s = Some c /\ Session.is_closed c = false.

(** What the host reads of an action in the actions-list reply. *)
Definition action_summary (a : Action.t) : string * string * string * Icon :=
  (Action.method a, Action.title a, Action.description a, Action.icon a).

(** Reading one entry of the actions-list reply back. *)
Definition decode_action (j : json) : option (string * string * string * Icon) :=
  match json_field j "method", json_field j "title", json_field j "description",
        json_field j "icon" with
  | Some (JStr m), Some (JStr t), Some (JStr d), Some ic =>
      match json_field ic "ref", json_field ic "icon" with
      | Some (JStr r), Some (JStr i) => Some (m, t, d, {| ref := r; icon := i |})
      | _, _ => None
      end
  | _, _, _, _ => None
  end.

(** Reading the actions-list reply back. *)
Definition decode_actions (j : json) : option (list (string * string * string * Icon)) :=
  match j with
  | JList l => mapM decode_action l
  | _ => None
  end.


(** Reading the intro reply back: name, author, version and, when
    present, the requirements' reply subject, UI and schema. *)
Definition decode_intro (j : json)
    : option (string * string * string * option (string * json * json)) :=
  match json_field j "name", json_field j "author", json_field j "version" with
  | Some (JStr n), Some (JStr a), Some (JStr v) =>
      match json_field j "requirements" with
      | None => Some (n, a, v, None)
      | Some rq =>
          match json_field rq "replyTo", json_field rq "jsonui",
                json_field rq "jsonschema" with
          | Some (JStr r), Some ui, Some sc => Some (n, a, v, Some (r, ui, sc))
          | _, _, _ => None
          end
      end
  | _, _, _ => None
  end.

End Spec.
Export Spec.

(** * Properties *)

(** ** Strings *)

Section StringFacts.

Lemma append_cons (x : Ascii.ascii) (a b : string) :
  String x a +:+ b = String x (a +:+ b).
Proof. reflexivity. Qed.

Lemma append_assoc (a b c : string) : (a +:+ b) +:+ c = a +:+ (b +:+ c).
Proof.
  induction a as [|x a IH]; [reflexivity |].
  by rewrite !append_cons, IH.
Qed.

Lemma append_length (a b : string) :
  String.length (a +:+ b) = String.length a + String.length b.
Proof.
  induction a as [|x a IH]; [reflexivity |].
  rewrite append_cons. simpl. by rewrite IH.
Qed.

(** A common suffix cancels. *)
Lemma append_inj_suffix (a b c : string) : a +:+ c = b +:+ c -> a = b.
Proof.
  revert b. induction a as [|x a IH]; intros [|y b] H.
  - reflexivity.
  - apply (f_equal String.length) in H.
    rewrite !append_length in H. simpl in H. lia.
  - apply (f_equal String.length) in H.
    rewrite !append_length in H. simpl in H. lia.
  - rewrite !append_cons in H. injection H as -> H. f_equal. by apply IH.
Qed.

(** A common prefix cancels. *)
Lemma append_inj_prefix (a b c : string) : a +:+ b = a +:+ c -> b = c.
Proof. apply String.app_inj. Qed.

End StringFacts.

(** ** Replies *)

Section RespondFacts.

(** A message with a reply subject is answered. *)
Lemma respond_with_reply (msg : Msg) (payload : string) (w : World) :
  reply msg ≠ "" ->
  respond msg payload w
  = (Ok tt, {| subs := subs w; trace := trace w ++ [EvRespond msg payload] |}).
Proof.
  intros H. unfold respond. apply String.eqb_neq in H. by rewrite H.
Qed.


End RespondFacts.

(** ** Subject registry *)

Module SubjectRegistry.

(** C1: for an SDK whose plugin id is [pluginID], each subject function
    returns exactly the string of the wire contract, with namespace
    [soren]: the control-plane subjects under [soren.v2.<pluginID>] and
    the execution-plane subjects under [soren.cpu.<pluginID>]. *)
Theorem subject_wire_contract (sdk : SorenSDK)
    (pluginID method jobID command suffix : string) :
  get_plugin_id sdk = Some pluginID ->
  make_intro_subject sdk = "soren.v2." +:+ pluginID +:+ ".@intro" /\
  make_settings_subject sdk = "soren.v2." +:+ pluginID +:+ ".@settings" /\
  make_actions_list_subject sdk = "soren.v2." +:+ pluginID +:+ ".@actions" /\
  make_form_subject sdk method = "soren.v2." +:+ pluginID +:+ "." +:+ method +:+ ".@form" /\
  make_action_cpu sdk method = "soren.cpu." +:+ pluginID +:+ "." +:+ method /\
  make_job_subject sdk jobID command
    = "soren.cpu." +:+ pluginID +:+ "." +:+ jobID +:+ "." +:+ command /\
  make_subject sdk suffix = "soren.v2." +:+ pluginID +:+ "." +:+ suffix.
Proof.
  unfold get_plugin_id. intros Hid.
  unfold make_intro_subject, make_settings_subject, make_actions_list_subject,
    make_form_subject, make_action_cpu, make_job_subject, make_subject.
  rewrite Hid. simpl fmt. repeat split.
Qed.

(** Scenario 1 and its siblings, at plugin id [abc]. *)
Lemma subject_wire_contract_abc :
  get_plugin_id sdk_abc = Some "abc" /\
  make_intro_subject sdk_abc = "soren.v2.abc.@intro" /\
  make_settings_subject sdk_abc = "soren.v2.abc.@settings" /\
  make_actions_list_subject sdk_abc = "soren.v2.abc.@actions" /\
  make_form_subject sdk_abc "scan" = "soren.v2.abc.scan.@form" /\
  make_action_cpu sdk_abc "scan" = "soren.cpu.abc.scan" /\
  make_job_subject sdk_abc "j1" "progress" = "soren.cpu.abc.j1.progress" /\
  make_subject sdk_abc "custom" = "soren.v2.abc.custom".
Proof.
  split; [reflexivity |].
  apply (subject_wire_contract sdk_abc "abc" "scan" "j1" "progress" "custom").
  reflexivity.
Defined.

(** C8: for a fixed plugin, the execution subject and the form subject
    are functions of the method (equal methods give equal subjects) and
    distinct methods give distinct subjects. *)
Theorem execute_form_injective_in_method (sdk : SorenSDK) (m1 m2 : string) :
  m1 ≠ m2 ->
  make_action_cpu sdk m1 ≠ make_action_cpu sdk m2 /\
  make_form_subject sdk m1 ≠ make_form_subject sdk m2 /\
  (forall m, m = m1 -> make_action_cpu sdk m = make_action_cpu sdk m1 /\
                       make_form_subject sdk m = make_form_subject sdk m1).
Proof.
  intros Hne. unfold make_action_cpu, make_form_subject. repeat split.
  - intros H. apply Hne.
    by do 3 apply append_inj_prefix in H.
  - intros H. apply Hne.
    do 3 apply append_inj_prefix in H.
    by apply append_inj_suffix in H.
  - by subst.
  - by subst.
Qed.

Lemma execute_form_injective_sample :
  "prepare" ≠ "scan.gen.graph" /\
  make_action_cpu sdk_abc "prepare" ≠ make_action_cpu sdk_abc "scan.gen.graph" /\
  make_form_subject sdk_abc "prepare" ≠ make_form_subject sdk_abc "scan.gen.graph" /\
  (forall m, m = "prepare" ->
     make_action_cpu sdk_abc m = make_action_cpu sdk_abc "prepare" /\
     make_form_subject sdk_abc m = make_form_subject sdk_abc "prepare").
Proof.
  assert (Hne : "prepare" ≠ "scan.gen.graph") by discriminate.
  split; [exact Hne |].
  exact (execute_form_injective_in_method sdk_abc "prepare" "scan.gen.graph" Hne).
Defined.

(** C9: the registry is not injective across roles: the execution
    subject of the method [jobID.command] is the job subject of
    [(jobID, command)], so an action whose method contains a dot can
    collide with a job-progress subject. *)
Theorem execute_collides_with_job (sdk : SorenSDK) (jobID command : string) :
  make_action_cpu sdk (jobID +:+ "." +:+ command) = make_job_subject sdk jobID command /\
  exists (method : string) (job : string * string),
    make_action_cpu sdk_abc method = make_job_subject sdk_abc job.1 job.2.
Proof.
  split; [reflexivity |].
  by exists "j1.progress", ("j1", "progress").
Qed.

End SubjectRegistry.

(** ** Construction of the SDK *)

Module Construction.

Lemma truthy_str_supplied (o : option string) :
  truthy_str o = true <-> supplied o.
Proof.
  unfold supplied. destruct o as [[|c s]|]; simpl; split.
  - discriminate.
  - intros (s & [= <-] & Hs). by destruct Hs.
  - intros _. by eexists.
  - done.
  - discriminate.
  - by intros (s & [=] & _).
Qed.

Lemma truthy_str_not_supplied (o : option string) :
  truthy_str o = false <-> ~ supplied o.
Proof.
  rewrite <- truthy_str_supplied. by destruct (truthy_str o).
Qed.

(** [a or b] is supplied exactly when one of the two is. *)
Lemma or_str_supplied (a b : option string) :
  supplied (or_str a b) <-> supplied a \/ supplied b.
Proof.
  unfold or_str. destruct (truthy_str a) eqn:Ha.
  - apply truthy_str_supplied in Ha. tauto.
  - apply truthy_str_not_supplied in Ha. tauto.
Qed.

Lemma SorenSDK_init_spec (cfg : Config) :
  (supplied (agent_uri cfg) /\ supplied (plugin_id cfg) ->
     SorenSDK_init cfg = Ok {| config := cfg; _closed := false |}) /\
  (~ supplied (agent_uri cfg) ->
     SorenSDK_init cfg = Raised (ValueError "agent URI is required")) /\
  (supplied (agent_uri cfg) -> ~ supplied (plugin_id cfg) ->
     SorenSDK_init cfg = Raised (ValueError "plugin ID is required")).
Proof.
  unfold SorenSDK_init. repeat split.
  - intros [Ha Hp].
    apply truthy_str_supplied in Ha, Hp. by rewrite Ha, Hp.
  - intros Ha. apply truthy_str_not_supplied in Ha. by rewrite Ha.
  - intros Ha Hp.
    apply truthy_str_supplied in Ha. apply truthy_str_not_supplied in Hp.
    by rewrite Ha, Hp.
Qed.

(** C6: the SDK is constructed exactly when the agent URI and the
    plugin id are both supplied, each by the explicit argument or else
    by the environment; when one of them is missing or empty in both
    places the constructor raises [ValueError], whatever the other
    arguments are, and [NewFromEnv] raises with it. *)
Theorem construction_requires_uri_and_id (environ : gmap string string)
    (a p k e s : option string) :
  let cfg := Config_init environ a p k e s in
  let have_uri := supplied a \/ supplied (environ !! "AGENT_URI") in
  let have_id := supplied p \/ supplied (environ !! "PLUGIN_ID") in
  (have_uri /\ have_id <-> exists sdk, SorenSDK_init cfg = Ok sdk) /\
  (~ (have_uri /\ have_id) <-> exists msg, SorenSDK_init cfg = Raised (ValueError msg)) /\
  (forall cfg' : Config,
     ~ supplied (agent_uri cfg') \/ ~ supplied (plugin_id cfg') ->
     exists msg, SorenSDK_init cfg' = Raised (ValueError msg)) /\
  (~ supplied (environ !! "AGENT_URI") \/ ~ supplied (environ !! "PLUGIN_ID") ->
     exists msg, NewFromEnv environ = Raised (ValueError msg)).
Proof.
  intros cfg have_uri have_id.
  assert (Huri : supplied (agent_uri cfg) <-> have_uri) by apply or_str_supplied.
  assert (Hid : supplied (plugin_id cfg) <-> have_id) by apply or_str_supplied.
  assert (Hany : forall cfg' : Config,
             ~ supplied (agent_uri cfg') \/ ~ supplied (plugin_id cfg') ->
             exists msg, SorenSDK_init cfg' = Raised (ValueError msg)).
  { intros cfg' H. destruct (SorenSDK_init_spec cfg') as (_ & Hno_uri & Hno_id).
    destruct (truthy_str (agent_uri cfg')) eqn:Ha.
    - apply truthy_str_supplied in Ha. destruct H as [H | H]; [done |].
      eexists. by apply Hno_id.
    - apply truthy_str_not_supplied in Ha. eexists. by apply Hno_uri. }
  destruct (SorenSDK_init_spec cfg) as (Hok & _).
  assert (Hraise : ~ (have_uri /\ have_id) ->
                   exists msg, SorenSDK_init cfg = Raised (ValueError msg)).
  { intros Hnot. apply Hany.
    destruct (truthy_str (agent_uri cfg)) eqn:Ha.
    - right. apply truthy_str_supplied in Ha. tauto.
    - left. by apply truthy_str_not_supplied. }
  split; [| split; [| split]].
  - split.
    + intros [Hu Hi]. eexists. apply Hok. tauto.
    + intros [sdk Hsdk].
      destruct (truthy_str (agent_uri cfg)) eqn:Ha;
        destruct (truthy_str (plugin_id cfg)) eqn:Hp.
      * apply truthy_str_supplied in Ha, Hp. tauto.
      * unfold SorenSDK_init in Hsdk. by rewrite Ha, Hp in Hsdk.
      * unfold SorenSDK_init in Hsdk. by rewrite Ha in Hsdk.
      * unfold SorenSDK_init in Hsdk. by rewrite Ha in Hsdk.
  - split; [exact Hraise |].
    intros [msg Hmsg] [Hu Hi].
    rewrite Hok in Hmsg by tauto. discriminate.
  - exact Hany.
  - intros H. apply Hany.
    assert (Hnone : forall o, supplied (or_str None o) <-> supplied o).
    { intros o. rewrite or_str_supplied. split; [| tauto].
      intros [(x & [=] & _) | Ho]; done. }
    simpl. rewrite !Hnone. exact H.
Qed.

Lemma construction_samples :
  (exists msg, SorenSDK_init (Config_init environ_no_id None (Some "") None None None)
               = Raised (ValueError msg)) /\
  (exists sdk, SorenSDK_init (Config_init environ_no_id None (Some "abc") None None None)
               = Ok sdk) /\
  (exists msg, NewFromEnv environ_no_id = Raised (ValueError msg)).
Proof.
  assert (Hno : ~ supplied (environ_no_id !! "PLUGIN_ID")).
  { by intros (x & [=] & _). }
  assert (Huri : supplied (environ_no_id !! "AGENT_URI")).
  { eexists. split; [reflexivity | discriminate]. }
  split; [| split].
  - destruct (construction_requires_uri_and_id environ_no_id None (Some "") None None None)
      as (_ & Hraise & _).
    apply Hraise.
    intros [_ [(x & [= <-] & Hx) | Hid]]; [by destruct Hx | by apply Hno].
  - destruct (construction_requires_uri_and_id environ_no_id None (Some "abc") None None None)
      as (Hok & _).
    apply Hok.
    split; [by right |]. left. eexists. split; [reflexivity | discriminate].
  - destruct (construction_requires_uri_and_id environ_no_id None None None None None)
      as (_ & _ & _ & Hnew).
    apply Hnew. by right.
Defined.

End Construction.

(** ** Plugin registrar: what [start] binds *)

Module Registrar.

Lemma subscribes_app (a b : list Event) :
  subscribes (a ++ b) = subscribes a ++ subscribes b.
Proof. apply omap_app. Qed.

Lemma binds_ret (env : Env) : binds env [] (ret tt).
Proof. intros w. red. simpl. by rewrite !app_nil_r. Qed.

Lemma binds_log (env : Env) (sev : Severity) (text : LogText) :
  binds env [] (log sev text).
Proof.
  intros w. red. simpl. rewrite subscribes_app. simpl. by rewrite !app_nil_r.
Qed.

Lemma binds_subscribe (env : Env) (s : string) (cb : Callback) :
  binds env [(s, cb)] (subscribe env s cb).
Proof.
  intros w. red. unfold subscribe.
  destruct (on_subscribe env (trace w) s) as [e|] eqn:Hs; simpl.
  - exists [], s, cb, []. rewrite subscribes_app, app_nil_r. eauto.
  - by rewrite subscribes_app.
Qed.

Lemma binds_seq (env : Env) (l1 l2 : list (string * Callback)) (c1 c2 : M unit) :
  binds env l1 c1 -> binds env l2 c2 -> binds env (l1 ++ l2) (c1;; c2).
Proof.
  intros H1 H2 w. specialize (H1 w). unfold bind. red in H1.
  destruct (c1 w) as [[[]|e] w1]; simpl in H1.
  - destruct H1 as [Htr1 Hsubs1].
    specialize (H2 w1). red in H2. red.
    destruct (c2 w1) as [[[]|e] w2]; simpl in *.
    + destruct H2 as [Htr2 Hsubs2].
      rewrite Htr2, Htr1, Hsubs2, Hsubs1, fmap_app, !app_assoc. done.
    + destruct H2 as (bound & s & cb & rest & -> & Htr2 & Hsubs2 & Href).
      exists (l1 ++ bound), s, cb, rest.
      rewrite Htr2, Htr1, Hsubs2, Hsubs1, fmap_app, !app_assoc. done.
  - destruct H1 as (bound & s & cb & rest & -> & Htr1 & Hsubs1 & Href).
    red. simpl. exists bound, s, cb, (rest ++ l2).
    rewrite <- app_assoc. done.
Qed.

Lemma binds_ext (env : Env) (l1 l2 : list (string * Callback)) (c : M unit) :
  l1 = l2 -> binds env l1 c -> binds env l2 c.
Proof. by intros ->. Qed.

Lemma binds_intro_handler (env : Env) (self : Plugin.t) :
  binds env (intro_binds self) (Plugin.intro_handler env self).
Proof.
  unfold intro_binds, Plugin.intro_handler.
  destruct (Plugin.intro self) as [i|]; [| apply binds_ret].
  apply (binds_seq env [_] _), (binds_seq env [] _);
    [apply binds_subscribe | apply binds_log |].
  destruct (PluginIntro.requirements i) as [r|]; [| apply binds_ret].
  destruct (Requirements.reply_to r) as [|c rt]; [apply binds_ret |].
  apply (binds_seq env [_] []); [apply binds_subscribe | apply binds_log].
Qed.

Lemma resolved_reply_to_code (s : Settings.t) :
  (if truthy_str (Settings.reply_to s) then fmt (Settings.reply_to s)
   else "_settings.config.submit") = resolved_reply_to s.
Proof. unfold resolved_reply_to. by destruct (Settings.reply_to s) as [[|c r]|]. Qed.

Lemma binds_settings_handler (env : Env) (self : Plugin.t) :
  binds env (settings_binds self) (Plugin.settings_handler env self).
Proof.
  unfold settings_binds, Plugin.settings_handler.
  apply (binds_seq env [_] _), (binds_seq env [] _);
    [apply binds_subscribe | apply binds_log |].
  destruct (Plugin.settings self) as [s|]; [| apply binds_ret].
  rewrite resolved_reply_to_code.
  apply (binds_seq env [_] []); [apply binds_subscribe | apply binds_log].
Qed.

Lemma binds_bind_actions (env : Env) (self : Plugin.t) (acts : list Action.t) :
  binds env (flat_map (action_binds self) acts) (Plugin.bind_actions env self acts).
Proof.
  induction acts as [|a acts IH]; simpl; [apply binds_ret |].
  apply (binds_seq env [_] (_ :: _)); [apply binds_subscribe |].
  apply (binds_seq env [] (_ :: _)); [apply binds_log |].
  apply (binds_seq env [_] _); [apply binds_subscribe |].
  apply (binds_seq env [] _); [apply binds_log | apply IH].
Qed.

Lemma binds_actions_handler (env : Env) (self : Plugin.t) :
  binds env (actions_binds self) (Plugin.actions_handler env self).
Proof.
  unfold actions_binds, Plugin.actions_handler.
  apply (binds_seq env [_] _), (binds_seq env [] _);
    [apply binds_subscribe | apply binds_log | apply binds_bind_actions].
Qed.

Lemma binds_start (env : Env) (self : Plugin.t) :
  binds env (start_binds self) (Plugin.start env self).
Proof.
  unfold start_binds, Plugin.start.
  apply binds_seq; [apply binds_intro_handler |].
  apply binds_seq; [apply binds_settings_handler |].
  apply (binds_ext env (actions_binds self ++ [])); [apply app_nil_r |].
  apply binds_seq; [apply binds_actions_handler | apply binds_log].
Qed.

(** When the connection accepts every subscription, a computation that
    is to make the subscriptions [items] returns and has made them. *)
Lemma binds_all_accepted (env : Env) (items : list (string * Callback)) (c : M unit)
    (w : World) :
  (forall tr s, on_subscribe env tr s = None) ->
  binds env items c ->
  (c w).1 = Ok tt /\ subs (c w).2 = subs w ++ items.
Proof.
  intros Hok Hc. specialize (Hc w). red in Hc.
  destruct (c w) as [[[]|e] w']; simpl in *.
  - by destruct Hc.
  - destruct Hc as (? & s & ? & ? & _ & _ & _ & tr & Href).
    by rewrite Hok in Href.
Qed.

(** C2, as the code has it: [start] makes the subscriptions of the
    intro phase, then of the settings phase, then of the actions phase,
    in that order.  It returns when the connection has accepted them
    all.  When the connection refuses one, [start] raises that
    subscription's exception to its caller at once: the subscriptions
    before it are bound, and none after it is attempted. *)
Theorem start_binds_in_order_until_refusal (env : Env) (self : Plugin.t) (w : World) :
  start_binds self = intro_binds self ++ settings_binds self ++ actions_binds self /\
  match (Plugin.start env self w).1 with
  | Ok _ =>
      subscribes (trace (Plugin.start env self w).2)
        = subscribes (trace w) ++ (start_binds self).*1 /\
      subs (Plugin.start env self w).2 = subs w ++ start_binds self
  | Raised e =>
      exists bound s cb rest,
        start_binds self = bound ++ (s, cb) :: rest /\
        subscribes (trace (Plugin.start env self w).2)
          = subscribes (trace w) ++ bound.*1 ++ [s] /\
        subs (Plugin.start env self w).2 = subs w ++ bound /\
        exists tr, on_subscribe env tr s = Some e
  end.
Proof. split; [reflexivity | apply binds_start]. Qed.

(** C2, as stated, fails: on a connection that refuses the intro
    subscription and would accept every other one, [start] raises
    after the intro attempt; the settings and actions subjects, which
    [start] was to bind, are never attempted. *)
Lemma start_stops_at_refused_intro :
  (Plugin.start env_intro_refused plugin_full World_empty).1
    = Raised (OtherError "subscribe refused") /\
  subscribes (trace (Plugin.start env_intro_refused plugin_full World_empty).2)
    = ["soren.v2.abc.@intro"] /\
  (start_binds plugin_full).*1
    = ["soren.v2.abc.@intro"; "soren.v2.abc.@settings";
       "soren.v2.abc._settings.config.submit"; "soren.v2.abc.@actions";
       "soren.v2.abc.prepare.@form"; "soren.cpu.abc.prepare"] /\
  on_subscribe env_intro_refused [EvSubscribe "soren.v2.abc.@intro"]
    "soren.v2.abc.@settings" = None /\
  on_subscribe env_intro_refused [EvSubscribe "soren.v2.abc.@intro"]
    "soren.v2.abc.@actions" = None.
Proof. repeat split. Qed.

(** C7: a settings form whose [reply_to] is the empty string, one
    whose [reply_to] is left out, and one whose [reply_to] is [None]
    all resolve to the subject [_settings.config.submit]; in general the
    [replyTo] shown in the settings reply and the subject the submit
    callback is bound to (under the plugin's [soren.v2] prefix) both
    come from the same resolution of [reply_to]: the settings callback
    answers a request with the serialisation of a body whose [replyTo]
    is the resolved subject. *)
Theorem settings_reply_to_resolution (env : Env) (self : Plugin.t)
    (jsonui jsonschema : json) (data : option pydict) (handler h : option Handler)
    (w : World) :
  (forall tr s, on_subscribe env tr s = None) ->
  let empty := Settings.new jsonui jsonschema (Settings.Passed (Some "")) data handler in
  let unset := Settings.new jsonui jsonschema Settings.Omitted data handler in
  let none := Settings.new jsonui jsonschema (Settings.Passed None) data handler in
  let shown s :=
    from_option (fun s' => json_field (Plugin.settings_dict s') "replyTo") None
      (Plugin.settings (Plugin.set_settings self s h)) in
  let bound s :=
    subs (Plugin.settings_handler env (Plugin.set_settings self s h) w).2 in
  (resolved_reply_to empty = "_settings.config.submit" /\
   resolved_reply_to unset = resolved_reply_to empty /\
   resolved_reply_to none = resolved_reply_to empty) /\
  (shown empty = Some (JStr "_settings.config.submit") /\
   shown unset = shown empty /\ shown none = shown empty) /\
  (bound empty = subs w ++ [(make_settings_subject (Plugin.sdk self), settings_callback);
                           (make_subject (Plugin.sdk self) "_settings.config.submit",
                            submit_callback)] /\
   bound unset = bound empty /\ bound none = bound empty) /\
  (forall s : Settings.t,
    shown s = Some (JStr (resolved_reply_to s)) /\
    bound s = subs w ++ [(make_settings_subject (Plugin.sdk self), settings_callback);
                        (make_subject (Plugin.sdk self) (resolved_reply_to s),
                         submit_callback)]) /\
  forall (s : Settings.t) (msg : Msg) (w' : World),
    reply msg ≠ "" ->
    exists body,
      Plugin.run_callback env (Plugin.set_settings self s h) settings_callback msg w'
      = (Ok tt, {| subs := subs w';
                   trace := trace w' ++ [EvLog SevInfo SettingsCalled;
                                         EvRespond msg (json_dumps env body)] |}) /\
      json_field body "replyTo" = Some (JStr (resolved_reply_to s)).
Proof.
  intros Hok empty unset none shown bound.
  assert (Hres : forall s, resolved_reply_to
            (from_option id s (Plugin.settings (Plugin.set_settings self s h)))
            = resolved_reply_to s).
  { intros s. by destruct h. }
  assert (Hgen : forall s : Settings.t,
    shown s = Some (JStr (resolved_reply_to s)) /\
    bound s = subs w ++ [(make_settings_subject (Plugin.sdk self), settings_callback);
                        (make_subject (Plugin.sdk self) (resolved_reply_to s),
                         submit_callback)]).
  { intros s. split.
    - unfold shown, Plugin.settings_dict. destruct h as [h'|]; simpl;
        rewrite resolved_reply_to_code; reflexivity.
    - unfold bound.
      destruct (binds_all_accepted env _ _ w Hok
                  (binds_settings_handler env (Plugin.set_settings self s h)))
        as [_ ->].
      unfold settings_binds. specialize (Hres s).
      destruct h; simpl in *; by rewrite ?Hres. }
  split; [by repeat split |].
  split; [| split; [| split; [exact Hgen |]]].
  - destruct (Hgen empty) as [-> _], (Hgen unset) as [-> _], (Hgen none) as [-> _].
    by repeat split.
  - destruct (Hgen empty) as [_ ->], (Hgen unset) as [_ ->], (Hgen none) as [_ ->].
    by repeat split.
  - intros s msg w' Hreply.
    unfold Plugin.run_callback, Plugin.run_settings_callback, bind, log, emit.
    destruct h as [h'|]; simpl; eexists;
      (split; [rewrite respond_with_reply by exact Hreply; simpl;
               rewrite <- app_assoc; reflexivity |]);
      unfold Plugin.settings_dict; simpl; rewrite resolved_reply_to_code; reflexivity.
Qed.

Lemma settings_reply_to_sample :
  (forall tr s, on_subscribe env_ok tr s = None) /\
  json_field
    (Plugin.settings_dict
       (Settings.new JNull JNull (Settings.Passed (Some "")) None None)) "replyTo"
    = Some (JStr "_settings.config.submit") /\
  subs (Plugin.settings_handler env_ok
          (Plugin.set_settings plugin_abc
             (Settings.new JNull JNull Settings.Omitted None None) None)
          World_empty).2
    = [("soren.v2.abc.@settings", settings_callback);
       ("soren.v2.abc._settings.config.submit", submit_callback)].
Proof.
  assert (Hok : forall tr s, on_subscribe env_ok tr s = None) by reflexivity.
  split; [exact Hok |].
  destruct (settings_reply_to_resolution env_ok plugin_abc JNull JNull None None None
              World_empty Hok) as (_ & (Hshown & _) & (Hbound & Hunset & _) & _ & _).
  split; [exact Hshown |].
  etrans; [exact Hunset | exact Hbound].
Defined.

(** Without requirements in the intro, [start] is to bind no
    requirements callback. *)
Lemma req_callback_not_bound (self : Plugin.t) (i : PluginIntro.t) (s : string) :
  Plugin.intro self = Some i ->
  PluginIntro.requirements i = None ->
  (s, req_callback) ∉ start_binds self.
Proof.
  intros Hi Hr. unfold start_binds, intro_binds, settings_binds, actions_binds.
  rewrite Hi, Hr. rewrite !elem_of_app, !elem_of_cons.
  intros [[H | H] | [[H | H] | [H | H]]]; try discriminate.
  - by apply elem_of_nil in H.
  - destruct (Plugin.settings self); [| by apply elem_of_nil in H].
    apply elem_of_cons in H as [H | H]; [discriminate | by apply elem_of_nil in H].
  - apply list_elem_of_In, in_flat_map in H as (a & _ & Ha).
    unfold action_binds in Ha. simpl in Ha.
    destruct Ha as [Ha | [Ha | []]]; discriminate.
Qed.

(** What [start] leaves bound is what was bound before and some of
    what it is to bind. *)
Lemma start_subs_from_binds (env : Env) (self : Plugin.t) (w : World)
    (x : string * Callback) :
  x ∈ subs (Plugin.start env self w).2 -> x ∈ subs w \/ x ∈ start_binds self.
Proof.
  pose proof (binds_start env self w) as H. red in H.
  destruct (Plugin.start env self w) as [[[]|e] w']; simpl in *.
  - destruct H as [_ ->]. by rewrite elem_of_app.
  - destruct H as (bound & s & cb & rest & -> & _ & -> & _).
    rewrite !elem_of_app. tauto.
Qed.

(** C10, as the code has it: when the intro has no requirements,
    [set_intro] with a handler stores the intro as it is and the
    handler nowhere (the plugin is the one [set_intro] without a
    handler gives), raising nothing.  [start] then binds no subject to
    the requirements callback, and that callback, were it run on such
    a plugin, raises and replies nothing.  The reply
    [{"status":"not implemented"}] is what the requirements callback
    sends, to a message with a reply subject, when the intro does have
    requirements and they have no handler. *)
Theorem set_intro_drops_handler (env : Env) (self : Plugin.t) (i : PluginIntro.t)
    (h : Handler) (w : World) :
  PluginIntro.requirements i = None ->
  Plugin.set_intro self i (Some h)
    = {| Plugin.sdk := Plugin.sdk self; Plugin.intro := Some i;
         Plugin.settings := Plugin.settings self;
         Plugin.actions := Plugin.actions self |} /\
  Plugin.set_intro self i (Some h) = Plugin.set_intro self i None /\
  (forall s, (s, req_callback) ∉ start_binds (Plugin.set_intro self i (Some h))) /\
  (forall s,
     (s, req_callback) ∈ subs (Plugin.start env (Plugin.set_intro self i (Some h)) w).2 ->
     (s, req_callback) ∈ subs w) /\
  (forall (msg : Msg) (w' : World),
     Plugin.run_callback env (Plugin.set_intro self i (Some h)) req_callback msg w'
     = (Raised AttributeError, w')) /\
  (forall (i' : PluginIntro.t) (r : Requirements.t) (msg : Msg) (w' : World),
     PluginIntro.requirements i' = Some r ->
     Requirements.handler r = None ->
     reply msg ≠ "" ->
     Plugin.run_callback env (Plugin.set_intro self i' None) req_callback msg w'
     = (Ok tt, {| subs := subs w';
                  trace := trace w' ++ [EvRespond msg NOT_IMPLEMENTED] |})).
Proof.
  intros Hr.
  assert (Hset : Plugin.set_intro self i (Some h)
    = {| Plugin.sdk := Plugin.sdk self; Plugin.intro := Some i;
         Plugin.settings := Plugin.settings self;
         Plugin.actions := Plugin.actions self |}).
  { unfold Plugin.set_intro. by rewrite Hr. }
  assert (Hnot : forall s,
            (s, req_callback) ∉ start_binds (Plugin.set_intro self i (Some h))).
  { intros s. apply (req_callback_not_bound _ i); [by rewrite Hset | exact Hr]. }
  split; [exact Hset |].
  split; [rewrite Hset; unfold Plugin.set_intro; by rewrite Hr |].
  split; [exact Hnot |].
  split; [| split].
  - intros s Hs. apply start_subs_from_binds in Hs as [Hs | Hs]; [exact Hs |].
    by apply Hnot in Hs.
  - intros msg w'. rewrite Hset.
    unfold Plugin.run_callback, Plugin.run_req_callback. simpl. by rewrite Hr.
  - intros i' r msg w' Hi' Hh Hreply.
    unfold Plugin.run_callback, Plugin.run_req_callback, Plugin.set_intro. simpl.
    rewrite Hi'. simpl. rewrite Hi', Hh. by apply respond_with_reply.
Qed.

Lemma set_intro_drops_handler_sample :
  PluginIntro.requirements intro_plain = None /\
  Plugin.set_intro plugin_abc intro_plain (Some sample_handler)
    = Plugin.set_intro plugin_abc intro_plain None /\
  (forall s,
     (s, req_callback) ∈ subs (Plugin.start env_ok plugin_handler_dropped World_empty).2 ->
     (s, req_callback) ∈ subs World_empty) /\
  replies (trace (Plugin.run_callback env_ok
                    (Plugin.set_intro plugin_abc intro_with_requirements None)
                    req_callback
                    {| subject := "soren.v2.abc.requirements.submit";
                       reply := "_INBOX.1"; data := "{}" |} World_empty).2)
    = [NOT_IMPLEMENTED].
Proof.
  destruct (set_intro_drops_handler env_ok plugin_abc intro_plain sample_handler
              World_empty eq_refl) as (_ & Hsame & _ & Hsubs & _ & Hreply).
  split; [reflexivity |].
  split; [exact Hsame |].
  split; [exact Hsubs |].
  rewrite (Hreply intro_with_requirements requirements_form _ _ eq_refl eq_refl);
    [reflexivity | discriminate].
Defined.

(** C10, as stated, fails: after [set_intro] with a handler on an intro
    without requirements, [start] on a connection that accepts
    everything binds the intro, settings and actions-list subjects only;
    a requirements submission is delivered to no callback and gets no
    reply, and the requirements callback itself, were it run, would
    raise instead of replying. *)
Lemma dropped_handler_gets_no_reply :
  subs (Plugin.start env_ok plugin_handler_dropped World_empty).2
    = [("soren.v2.abc.@intro", intro_callback);
       ("soren.v2.abc.@settings", settings_callback);
       ("soren.v2.abc.@actions", list_callback)] /\
  replies (trace (deliver env_ok plugin_handler_dropped
                    {| subject := "soren.v2.abc.requirements.submit";
                       reply := "_INBOX.1"; data := "{}" |}
                    (Plugin.start env_ok plugin_handler_dropped World_empty).2).2)
    = [] /\
  (Plugin.run_req_callback env_ok plugin_handler_dropped
     {| subject := "soren.v2.abc.requirements.submit";
        reply := "_INBOX.1"; data := "{}" |} World_empty).1
    = Raised AttributeError.
Proof. repeat split. Qed.

End Registrar.

(** ** Job progress reporter *)

Module Reporter.

Lemma extends_ret {A} (a : A) : extends (ret a).
Proof. intros w. exists []. simpl. by rewrite app_nil_r. Qed.

Lemma extends_raise {A} (e : exn) : extends (@raise A e).
Proof. intros w. exists []. simpl. by rewrite app_nil_r. Qed.

Lemma extends_emit (ev : Event) : extends (emit ev).
Proof. intros w. by exists [ev]. Qed.

Lemma extends_bind {A B} (c : M A) (k : A -> M B) :
  extends c -> (forall a, extends (k a)) -> extends (bind c k).
Proof.
  intros Hc Hk w. unfold bind. destruct (Hc w) as [tr1 H1].
  destruct (c w) as [[a|e] w1]; simpl in *.
  - destruct (Hk a w1) as [tr2 H2]. exists (tr1 ++ tr2).
    by rewrite H2, H1, app_assoc.
  - by exists tr1.
Qed.

Lemma extends_try_except {A} (c : M A) (h : exn -> M A) :
  extends c -> (forall e, extends (h e)) -> extends (try_except c h).
Proof.
  intros Hc Hh w. unfold try_except. destruct (Hc w) as [tr1 H1].
  destruct (c w) as [[a|e] w1]; simpl in *.
  - by exists tr1.
  - destruct (Hh e w1) as [tr2 H2]. exists (tr1 ++ tr2).
    by rewrite H2, H1, app_assoc.
Qed.

Lemma extends_request (env : Env) (s b : string) (t : Z)
    (hd : option (list (string * string))) :
  extends (request env s b t hd).
Proof. intros w. by eexists. Qed.

Lemma extends_flush (env : Env) : extends (flush env).
Proof. intros w. by eexists. Qed.

Lemma extends_decode (env : Env) (b : string) : extends (decode env b).
Proof.
  unfold decode. destruct (utf8_decode env b); [apply extends_ret | apply extends_raise].
Qed.

Lemma extends_if {A} (b : bool) (c1 c2 : M A) :
  extends c1 -> extends c2 -> extends (if b then c1 else c2).
Proof. by destruct b. Qed.

Lemma extends_send (env : Env) (sub body : string) :
  forall msg : Msg,
    extends (flush env;;
             let* text := (if String.eqb (data msg) "" then ret "No response"
                           else decode env (data msg)) in
             log SevInfo (ProgressSent text);;
             ret (Plugin.RetMsg msg)).
Proof.
  intros msg.
  apply extends_bind; [apply extends_flush |]. intros _.
  apply extends_bind.
  - apply extends_if; [apply extends_ret | apply extends_decode].
  - intros text. apply extends_bind; [apply extends_emit |]. intros _.
    apply extends_ret.
Qed.

Lemma extends_progress_loop (env : Env) (sub body : string) (command : Command)
    (max_retries : nat) (attempts : list nat) :
  extends (Plugin.progress_loop env sub body command max_retries attempts).
Proof.
  induction attempts as [|attempt rest IH]; cbn [Plugin.progress_loop];
    [apply extends_ret |].
  apply extends_try_except.
  - apply extends_bind; [apply extends_request | apply (extends_send env sub body)].
  - intros e. repeat apply extends_if.
    + apply extends_bind.
      { apply extends_if; [apply extends_emit | apply extends_ret]. }
      intros _. apply extends_bind; [apply extends_emit |]. intros _. apply IH.
    + apply extends_bind; [apply extends_emit |]. intros _. apply extends_ret.
    + apply extends_bind; [apply extends_emit |]. intros _. apply extends_ret.
Qed.

(** The first thing the loop does to the world is the request. *)
Lemma progress_loop_first_request (env : Env) (sub body : string) (command : Command)
    (max_retries attempt : nat) (rest : list nat) (w : World) :
  exists tr',
    trace (Plugin.progress_loop env sub body command max_retries (attempt :: rest) w).2
    = trace w ++ EvRequest sub body 3 None :: tr'.
Proof.
  pose proof (extends_progress_loop env sub body command max_retries rest) as IH.
  cbn [Plugin.progress_loop].
  match goal with |- context [try_except (bind (request _ _ _ _ _) ?k) ?h] =>
    set (K := k); set (H := h) end.
  assert (HK : forall msg, extends (K msg)) by apply (extends_send env sub body).
  assert (HH : forall e, extends (H e)).
  { intros e. subst H. cbv beta. repeat apply extends_if.
    - apply extends_bind.
      { apply extends_if; [apply extends_emit | apply extends_ret]. }
      intros _. apply extends_bind; [apply extends_emit |]. intros _. apply IH.
    - apply extends_bind; [apply extends_emit |]. intros _. apply extends_ret.
    - apply extends_bind; [apply extends_emit |]. intros _. apply extends_ret. }
  unfold try_except, bind at 1, request.
  destruct (on_request env (trace w) sub body) as [msg|e].
  - match goal with |- context [K msg ?w1] => destruct (HK msg w1) as [tr' Htr] end.
    destruct (K msg _) as [[r|e] w2]; simpl in *.
    + exists tr'. rewrite Htr, <- app_assoc. done.
    + destruct (HH e w2) as [tr2 Htr2]. exists (tr' ++ tr2).
      rewrite Htr2, Htr, <- !app_assoc. done.
  - match goal with |- context [H e ?w1] => destruct (HH e w1) as [tr' Htr] end.
    exists tr'. simpl in *. rewrite Htr, <- app_assoc. done.
Qed.

Lemma progress_first_request (env : Env) (self : Plugin.t) (job_id : string)
    (command : Command) (data : JobProgress.t) (w : World) :
  exists tr',
    trace (Plugin.progress env self job_id command data w).2
    = trace w
      ++ EvRequest (make_job_subject (Plugin.sdk self) job_id (Command_value command))
           (json_dumps env (Plugin.data_dict data)) 3 None :: tr'.
Proof. apply progress_loop_first_request. Qed.

(** C4: [done(jobID, details)] is [progress] with command [PROGRESS],
    progress 100 and the frame [Completed] / [Job completed
    successfully]: same result, same effect on the world; and the call
    it makes first is the request on the job's [progress] subject with
    that body and a timeout of 3. *)
Theorem done_is_progress_completed (env : Env) (self : Plugin.t) (jobID : string)
    (details : pydict) (w : World) :
  Plugin.done env self jobID details w
    = Plugin.progress env self jobID PROGRESS
        {| JobProgress.progress := 100;
           JobProgress.frame := {| Frame.title := "Completed";
                                   Frame.content := "Job completed successfully" |};
           JobProgress.details := Some details |} w /\
  exists tr',
    trace (Plugin.done env self jobID details w).2
    = trace w
      ++ EvRequest (make_job_subject (Plugin.sdk self) jobID "progress")
           (json_dumps env
              (JDict ([("progress", JInt 100);
                       ("frame", JDict [("title", JStr "Completed");
                                        ("content", JStr "Job completed successfully")])]
                      ++ match details with
                         | [] => []
                         | _ :: _ => [("details", JDict details)]
                         end)))
           3 None :: tr'.
Proof.
  split; [reflexivity |].
  unfold Plugin.done.
  destruct (progress_first_request env self jobID PROGRESS
              {| JobProgress.progress := 100;
                 JobProgress.frame := {| Frame.title := "Completed";
                                         Frame.content := "Job completed successfully" |};
                 JobProgress.details := Some details |} w) as [tr' Htr].
  exists tr'. rewrite Htr. by destruct details.
Qed.

(** C3, as the code has it: when every request meets a no-responder
    failure, [progress] makes exactly three requests (timeout 3) with a
    delay of 1 before the second and before the third, and nothing
    else but two log lines: none after the first failure, a warning
    after the second, an error (and no warning) after the third.  It
    then returns the failure as a value; it does not raise. *)
Theorem progress_no_responders (env : Env) (self : Plugin.t) (jobID : string)
    (command : Command) (data : JobProgress.t) (w : World) :
  (forall tr s b, on_request env tr s b = Raised NoRespondersError) ->
  exists delta,
    Plugin.progress env self jobID command data w
    = (Ok (Plugin.RetExc NoRespondersError),
       {| subs := subs w; trace := trace w ++ delta |}) /\
    delta
    = (let sub := make_job_subject (Plugin.sdk self) jobID (Command_value command) in
       let body := json_dumps env (Plugin.data_dict data) in
       [EvRequest sub body 3 None;
        EvSleep 1;
        EvRequest sub body 3 None;
        EvLog SevWarning (ProgressRetry command 1 2 NoRespondersError);
        EvSleep 1;
        EvRequest sub body 3 None;
        EvLog SevError (ProgressNoResponder command 3 NoRespondersError)]) /\
    length (requests delta) = 3 /\
    sleeps delta = [1%Z; 1%Z] /\
    attempt_logs delta = [[]; [SevWarning]; [SevError]].
Proof.
  intros Hno. eexists. split; [| split; [reflexivity | by repeat split]].
  unfold Plugin.progress. cbn [Plugin.progress_loop seq].
  unfold try_except, bind, request. repeat (rewrite Hno; cbn).
  by rewrite <- !app_assoc.
Qed.

Lemma progress_no_responders_sample :
  (forall tr s b, on_request env_no_responders tr s b = Raised NoRespondersError) /\
  (Plugin.progress env_no_responders plugin_abc "j1" PROGRESS half_way World_empty).1
    = Ok (Plugin.RetExc NoRespondersError) /\
  attempt_logs
    (trace (Plugin.progress env_no_responders plugin_abc "j1" PROGRESS half_way
              World_empty).2)
    = [[]; [SevWarning]; [SevError]].
Proof.
  assert (Hno : forall tr s b,
            on_request env_no_responders tr s b = Raised NoRespondersError)
    by reflexivity.
  split; [exact Hno |].
  destruct (progress_no_responders env_no_responders plugin_abc "j1" PROGRESS half_way
              World_empty Hno) as (delta & -> & _ & _ & _ & Hlogs).
  split; [reflexivity | exact Hlogs].
Defined.

(** C3, as stated, fails: with nobody answering, the failure of the
    third attempt is logged as an error and not as a warning; the trace
    holds one warning, the one after the second failure. *)
Lemma third_failure_logs_no_warning :
  nth 2 (attempt_logs
           (trace (Plugin.progress env_no_responders plugin_abc "j1" PROGRESS half_way
                     World_empty).2)) []
    = [SevError] /\
  omap (fun ev => match ev with
                  | EvLog SevWarning text => Some text
                  | _ => None
                  end)
    (trace (Plugin.progress env_no_responders plugin_abc "j1" PROGRESS half_way
              World_empty).2)
    = [ProgressRetry PROGRESS 1 2 NoRespondersError].
Proof. split; reflexivity. Qed.

End Reporter.

(** ** Event logger *)

Module Events.


Lemma never_raises_ret : never_raises (ret tt).
Proof. intros w. by eexists. Qed.






Lemma send_event_cases (env : Env) (self : EventLogger.t)
    (event : AnyPluginEvent.t) (w : World) :
  EventLogger.send_event env self event w
  = if truthy_str (event_channel (config (EventLogger.sdk self))) then
      match EventLogger.encodable event with
      | Some event' =>
          EventLogger.post_events env self false
            (json_dumps env (JList [EventLogger.event_dict event'])) w
      | None => (Raised TypeError, w)
      end
    else (Ok tt, w).
Proof.
  unfold EventLogger.send_event, EventLogger.dumps_events.
  destruct (truthy_str _); [| reflexivity]. cbn [negb]. unfold bind.
  cbn [mapM]. by destruct (EventLogger.encodable event).
Qed.

(** C5, at the failing input: with an event channel configured,
    [send_event] and [log] given details that hold a set raise
    [TypeError] to their caller, before any request is made:
    [json.dumps] is called ahead of the [try].  (Without a channel the
    same calls return at once.) *)
Theorem send_event_raises_on_unencodable_details :
  EventLogger.send_event env_ok logger_abc event_with_set World_empty
    = (Raised TypeError, World_empty) /\
  EventLogger.log env_ok logger_abc "remote-mate-pc" INFO "start plugin"
    (Some [("seen", Unencodable "{1, 2}")]) World_empty
    = (Raised TypeError, World_empty) /\
  EventLogger.send_event env_ok logger_silent event_with_set World_empty
    = (Ok tt, World_empty) /\
  EventLogger.log env_ok logger_silent "remote-mate-pc" INFO "start plugin"
    (Some [("seen", Unencodable "{1, 2}")]) World_empty
    = (Ok tt, World_empty).
Proof.
  unfold EventLogger.log. rewrite !send_event_cases. by repeat split.
Qed.

End Events.

(** ** Transport session: [connect] and [close] *)

Module SessionProps.

Lemma prefix_append (p s : string) : String.prefix p (p +:+ s) = true.
Proof.
  induction p as [|a p IH].
  - by destruct s.
  - rewrite append_cons. simpl. by destruct (Ascii.ascii_dec a a).
Qed.

(** X1: the URI handed to the transport library always starts with one
    of the four schemes; a URI that has one is passed on unchanged,
    any other gets [nats://] put in front; normalising twice changes
    nothing more. *)
Theorem dial_uri_normalises (uri : string) :
  Session.has_scheme (Session.dial_uri uri) = true /\
  (Session.has_scheme uri = true -> Session.dial_uri uri = uri) /\
  (Session.has_scheme uri = false -> Session.dial_uri uri = "nats://" +:+ uri) /\
  Session.dial_uri (Session.dial_uri uri) = Session.dial_uri uri.
Proof.
  assert (H1 : Session.has_scheme (Session.dial_uri uri) = true).
  { unfold Session.dial_uri. destruct (Session.has_scheme uri) eqn:H; [exact H |].
    unfold Session.has_scheme. by rewrite prefix_append. }
  split; [exact H1 |]. split; [| split].
  - intros H. unfold Session.dial_uri. by rewrite H.
  - intros H. unfold Session.dial_uri. by rewrite H.
  - unfold Session.dial_uri at 1. by rewrite H1.
Qed.

Lemma dial_uri_samples :
  Session.dial_uri "agent:4222" = "nats://agent:4222" /\
  Session.dial_uri "wss://agent:443" = "wss://agent:443" /\
  Session.has_scheme (Session.dial_uri "http://agent") = true.
Proof.
  destruct (dial_uri_normalises "agent:4222") as (_ & _ & Hbare & _).
  destruct (dial_uri_normalises "wss://agent:443") as (_ & Hkeep & _ & _).
  destruct (dial_uri_normalises "http://agent") as (Hs & _).
  split; [exact (Hbare eq_refl) |]. split; [exact (Hkeep eq_refl) | exact Hs].
Defined.

Lemma connect_returned_live (net : list Session.Output -> string -> Session.dial)
    (s s' : Session.t) (c : Session.Conn) :
  Session.connect net s = (Session.Returned c, s') ->
  Session.conn s' = Some c /\ Session.is_closed c = false.
Proof.
  unfold Session.connect, Session.dial_and_return.
  destruct (Session.conn s) as [c0|] eqn:Hc.
  - destruct (Session.is_closed c0) eqn:Hcl.
    + destruct (agent_uri _); [| discriminate].
      destruct (net _ _); intros [= <- <-]; done.
    + intros [= <- <-]. done.
  - destruct (agent_uri _); [| discriminate].
    destruct (net _ _); intros [= <- <-]; done.
Qed.

(** X2: [connect] is idempotent: once a call has returned a
    connection, calling [connect] again, on whatever network, returns
    the same connection and does nothing: no dial, no printed line. *)
Theorem connect_twice (net net' : list Session.Output -> string -> Session.dial)
    (s s' : Session.t) (c : Session.Conn) :
  Session.connect net s = (Session.Returned c, s') ->
  Session.connect net' s' = (Session.Returned c, s').
Proof.
  intros H. apply connect_returned_live in H as [Hc Hcl].
  unfold Session.connect. by rewrite Hc, Hcl.
Qed.

Lemma connect_twice_sample :
  Session.connect net_up session_bare
    = (Session.Returned {| Session.conn_uri := "nats://agent:4222";
                           Session.is_closed := false;
                           Session.is_connected := true |},
       (Session.connect net_up session_bare).2) /\
  Session.connect net_down (Session.connect net_up session_bare).2
    = (Session.Returned {| Session.conn_uri := "nats://agent:4222";
                           Session.is_closed := false;
                           Session.is_connected := true |},
       (Session.connect net_up session_bare).2).
Proof.
  assert (H : Session.connect net_up session_bare
    = (Session.Returned {| Session.conn_uri := "nats://agent:4222";
                           Session.is_closed := false;
                           Session.is_connected := true |},
       (Session.connect net_up session_bare).2)) by reflexivity.
  split; [exact H |].
  exact (connect_twice net_up net_down session_bare _ _ H).
Defined.

(** X3: a failed [connect] raises [ConnectionError] after exactly one
    dial of the normalised agent URI (inner timeout 5, outer 10), has
    printed its message, and leaves the session's connection as it
    was. *)
Theorem connect_failure (net : list Session.Output -> string -> Session.dial)
    (s s' : Session.t) (msg : string) :
  Session.connect net s = (Session.RaisedConnectionError msg, s') ->
  Session.conn s' = Session.conn s /\
  Session.sdk s' = Session.sdk s /\
  ~ live s /\
  exists agent,
    agent_uri (config (Session.sdk s)) = Some agent /\
    Session.out s'
    = Session.out s
      ++ [Session.PrintConnecting (Session.dial_uri agent);
          Session.CallConnect (Session.dial_uri agent) 5 10;
          Session.PrintError msg].
Proof.
  unfold Session.connect.
  assert (Hdial : Session.dial_and_return net s
                  = (Session.RaisedConnectionError msg, s') ->
    Session.conn s' = Session.conn s /\ Session.sdk s' = Session.sdk s /\
    exists agent,
      agent_uri (config (Session.sdk s)) = Some agent /\
      Session.out s'
      = Session.out s
        ++ [Session.PrintConnecting (Session.dial_uri agent);
            Session.CallConnect (Session.dial_uri agent) 5 10;
            Session.PrintError msg]).
  { unfold Session.dial_and_return.
    destruct (agent_uri _) as [agent|]; [| discriminate].
    destruct (net _ _); intros [= <- <-]; simpl;
      (split; [done |]; split; [done |]; exists agent;
       split; [done |]; by rewrite <- app_assoc). }
  destruct (Session.conn s) as [c0|] eqn:Hc.
  - destruct (Session.is_closed c0) eqn:Hcl; [| discriminate].
    intros H. destruct (Hdial H) as (Hc' & Hs & Hout).
    rewrite Hc'. split; [done |]. split; [done |]. split; [| exact Hout].
    intros (c1 & Hc1 & Hl). rewrite Hc in Hc1. injection Hc1 as <-. congruence.
  - intros H. destruct (Hdial H) as (Hc' & Hs & Hout).
    rewrite Hc'. split; [done |]. split; [done |]. split; [| exact Hout].
    intros (c1 & Hc1 & _). rewrite Hc in Hc1. discriminate.
Qed.

Lemma connect_failure_sample :
  (Session.connect net_down session_bare).1
    = Session.RaisedConnectionError
        "Connection timeout: Failed to connect to NATS at nats://agent:4222 within 10 seconds"
  /\
  Session.conn (Session.connect net_down session_bare).2 = None /\
  dials (Session.out (Session.connect net_down session_bare).2)
    = ["nats://agent:4222"].
Proof.
  assert (H : Session.connect net_down session_bare
    = (Session.RaisedConnectionError
         "Connection timeout: Failed to connect to NATS at nats://agent:4222 within 10 seconds",
       (Session.connect net_down session_bare).2)) by reflexivity.
  destruct (connect_failure net_down session_bare _ _ H)
    as (Hc & _ & _ & agent & Hagent & Hout).
  split; [reflexivity |]. split; [exact Hc |].
  rewrite Hout. injection Hagent as <-. reflexivity.
Defined.

(** X4: [close] is idempotent and safe on a session that never
    connected: it sets [_closed], closes the connection when there is
    a live one and only then, never dials; a second [close] changes
    nothing and calls the transport library no more. *)
Theorem close_idempotent (s : Session.t) :
  Session.close (Session.close s) = Session.close s /\
  _closed (Session.sdk (Session.close s)) = true /\
  ~ live (Session.close s) /\
  dials (Session.out (Session.close s)) = dials (Session.out s) /\
  (Session.conn s = None -> Session.out (Session.close s) = Session.out s) /\
  (forall c, Session.conn s = Some c ->
     closes (Session.out (Session.close s))
     = closes (Session.out s)
       ++ if Session.is_closed c then [] else [Session.conn_uri c]).
Proof.
  unfold Session.close, dials, closes.
  destruct (Session.conn s) as [c|] eqn:Hc; [destruct (Session.is_closed c) eqn:Hcl |];
    simpl; rewrite ?Hc, ?Hcl; simpl.
  - repeat split; try done.
    + intros (c1 & [= <-] & Hl). congruence.
    + intros c1 [= <-]. by rewrite Hcl, app_nil_r.
  - repeat split; try done.
    + intros (c1 & [= <-] & Hl). done.
    + by rewrite omap_app, app_nil_r.
    + intros c1 [= <-]. by rewrite Hcl, omap_app.
  - repeat split; try done.
    intros (c1 & [=] & _).
Qed.

(** X5: [connect] after [close] always dials, also when the session
    held a live connection before the [close], and returns a fresh live
    connection; the flag [_closed] that [close] set stays set. *)
Theorem connect_after_close (net : list Session.Output -> string -> Session.dial)
    (s : Session.t) (agent : string) (connected : bool) :
  agent_uri (config (Session.sdk s)) = Some agent ->
  (forall o uri, net o uri = Session.Dialled connected) ->
  (Session.connect net (Session.close s)).1
    = Session.Returned {| Session.conn_uri := Session.dial_uri agent;
                          Session.is_closed := false;
                          Session.is_connected := connected |} /\
  live (Session.connect net (Session.close s)).2 /\
  _closed (Session.sdk (Session.connect net (Session.close s)).2) = true /\
  dials (Session.out (Session.connect net (Session.close s)).2)
    = dials (Session.out s) ++ [Session.dial_uri agent].
Proof.
  intros Hagent Hnet.
  unfold Session.connect, Session.close, Session.dial_and_return, live, dials.
  destruct (Session.conn s) as [c|] eqn:Hc;
    [destruct (Session.is_closed c) eqn:Hcl |]; simpl;
    repeat (rewrite ?Hc, ?Hcl, ?Hagent, ?Hnet; simpl);
    (repeat split; [by eexists |]);
    rewrite !omap_app; simpl; destruct connected; simpl; by rewrite !app_nil_r.
Qed.

Lemma connect_after_close_sample :
  agent_uri (config (Session.sdk (Session.connect net_up session_bare).2))
    = Some "agent:4222" /\
  (forall o uri, net_up o uri = Session.Dialled true) /\
  _closed (Session.sdk (Session.connect net_up
             (Session.close (Session.connect net_up session_bare).2)).2) = true /\
  dials (Session.out (Session.connect net_up
           (Session.close (Session.connect net_up session_bare).2)).2)
    = ["nats://agent:4222"; "nats://agent:4222"].
Proof.
  destruct (connect_after_close net_up (Session.connect net_up session_bare).2
              "agent:4222" true eq_refl (fun _ _ => eq_refl))
    as (_ & _ & Hflag & Hdials).
  split; [reflexivity |]. split; [reflexivity |].
  split; [exact Hflag | exact Hdials].
Defined.

End SessionProps.

(** ** Configuration and subjects, further *)

Module ConfigProps.

Lemma or_str_cases (a b : option string) :
  (supplied a -> or_str a b = a) /\ (~ supplied a -> or_str a b = b).
Proof.
  unfold or_str. split; intros H.
  - apply Construction.truthy_str_supplied in H. by rewrite H.
  - apply Construction.truthy_str_not_supplied in H. by rewrite H.
Qed.

(** X6: in [Config], for each of the five fields, an explicit argument
    that is a non-empty string is taken as it is, whatever the
    environment holds; an argument that is [None] or empty gives way
    to the environment variable of the field ([None] when unset). *)
Theorem config_argument_over_environment (environ : gmap string string)
    (a p k e s : option string) :
  let cfg := Config_init environ a p k e s in
  ((supplied a -> agent_uri cfg = a) /\
   (~ supplied a -> agent_uri cfg = environ !! "AGENT_URI")) /\
  ((supplied p -> plugin_id cfg = p) /\
   (~ supplied p -> plugin_id cfg = environ !! "PLUGIN_ID")) /\
  ((supplied k -> auth_key cfg = k) /\
   (~ supplied k -> auth_key cfg = environ !! "SOREN_AUTH_KEY")) /\
  ((supplied e -> event_channel cfg = e) /\
   (~ supplied e -> event_channel cfg = environ !! "SOREN_EVENT_CHANNEL")) /\
  ((supplied s -> store_channel cfg = s) /\
   (~ supplied s -> store_channel cfg = environ !! "SOREN_STORE")).
Proof. intros cfg. repeat split; apply or_str_cases. Qed.

Lemma config_argument_over_environment_sample :
  plugin_id (Config_init environ_no_id None (Some "abc") None None None) = Some "abc" /\
  agent_uri (Config_init environ_no_id (Some "") None None None None)
    = Some "nats://agent:4222" /\
  auth_key (Config_init environ_no_id None None (Some "") None None) = None.
Proof.
  destruct (config_argument_over_environment environ_no_id (Some "") (Some "abc")
              (Some "") None None) as ((_ & Huri) & (Hid & _) & (_ & Hkey) & _).
  split; [apply Hid; eexists; split; [reflexivity | discriminate] |].
  split; [apply Huri | apply Hkey]; by intros (x & [= <-] & Hx).
Defined.

(** X7: [NewFromEnv] builds the SDK from the environment alone: with
    both mandatory variables set and non-empty it returns an SDK whose
    configuration holds the five variables as the environment has
    them; without the agent URI it raises [agent URI is required]
    (also when the plugin id is missing too), and without the plugin
    id only, [plugin ID is required]. *)
Theorem NewFromEnv_reads_environment (environ : gmap string string) :
  (supplied (environ !! "AGENT_URI") -> supplied (environ !! "PLUGIN_ID") ->
   NewFromEnv environ
   = Ok {| config := {| agent_uri := environ !! "AGENT_URI";
                        plugin_id := environ !! "PLUGIN_ID";
                        auth_key := environ !! "SOREN_AUTH_KEY";
                        event_channel := environ !! "SOREN_EVENT_CHANNEL";
                        store_channel := environ !! "SOREN_STORE" |};
           _closed := false |}) /\
  (~ supplied (environ !! "AGENT_URI") ->
   NewFromEnv environ = Raised (ValueError "agent URI is required")) /\
  (supplied (environ !! "AGENT_URI") -> ~ supplied (environ !! "PLUGIN_ID") ->
   NewFromEnv environ = Raised (ValueError "plugin ID is required")).
Proof.
  unfold NewFromEnv.
  destruct (Construction.SorenSDK_init_spec
              (Config_init environ None None None None None)) as (Hok & Huri & Hid).
  split; [| split].
  - intros Ha Hp. by apply Hok.
  - exact Huri.
  - exact Hid.
Qed.

Lemma NewFromEnv_sample :
  NewFromEnv environ_no_id = Raised (ValueError "plugin ID is required") /\
  NewFromEnv ∅ = Raised (ValueError "agent URI is required") /\
  NewFromEnv (<["PLUGIN_ID" := "abc"]> environ_no_id)
    = Ok {| config := {| agent_uri := Some "nats://agent:4222";
                         plugin_id := Some "abc";
                         auth_key := None; event_channel := None;
                         store_channel := None |};
            _closed := false |}.
Proof.
  assert (Hs : forall x : string, x ≠ "" -> supplied (Some x)).
  { intros x Hx. by exists x. }
  assert (Hn : ~ supplied None) by (by intros (x & [=] & _)).
  destruct (NewFromEnv_reads_environment environ_no_id) as (_ & _ & Hid).
  destruct (NewFromEnv_reads_environment ∅) as (_ & Huri & _).
  destruct (NewFromEnv_reads_environment (<["PLUGIN_ID" := "abc"]> environ_no_id))
    as (Hok & _ & _).
  split; [| split].
  - apply Hid; [by apply Hs | exact Hn].
  - apply Huri. exact Hn.
  - apply Hok; by apply Hs.
Defined.

End ConfigProps.

Module SubjectProps.

Lemma planes_apart (x y : string) : "soren.v2." +:+ x ≠ "soren.cpu." +:+ y.
Proof. intros H. rewrite !append_cons in H. discriminate. Qed.

(** X8: the control plane and the execution plane never meet: no
    subject under [soren.v2] (custom, intro, settings, actions list,
    form) equals a subject under [soren.cpu] (execute, job, progress
    wildcard), whatever the plugins, methods and jobs. *)
Theorem control_and_execution_subjects_apart (sdk sdk' : SorenSDK)
    (suffix method method' jobID command : string) :
  let control := [make_subject sdk suffix; make_intro_subject sdk;
                  make_settings_subject sdk; make_actions_list_subject sdk;
                  make_form_subject sdk method] in
  let execution := [make_action_cpu sdk' method';
                    make_job_subject sdk' jobID command;
                    make_progress_subject sdk' jobID] in
  Forall (fun c => Forall (fun e => c ≠ e) execution) control.
Proof.
  intros control execution.
  repeat first [apply Forall_nil_2 | apply Forall_cons_2]; apply planes_apart.
Qed.

(** X9: the three fixed subjects of a plugin tell plugins apart:
    different plugin ids give different intro, settings and
    actions-list subjects. *)
Theorem fixed_subjects_injective_in_plugin (sdk1 sdk2 : SorenSDK) (p1 p2 : string) :
  get_plugin_id sdk1 = Some p1 ->
  get_plugin_id sdk2 = Some p2 ->
  p1 ≠ p2 ->
  make_intro_subject sdk1 ≠ make_intro_subject sdk2 /\
  make_settings_subject sdk1 ≠ make_settings_subject sdk2 /\
  make_actions_list_subject sdk1 ≠ make_actions_list_subject sdk2.
Proof.
  unfold get_plugin_id, make_intro_subject, make_settings_subject,
    make_actions_list_subject.
  intros -> -> Hne. simpl fmt.
  repeat split; intros H; apply Hne;
    apply append_inj_prefix in H; by apply append_inj_suffix in H.
Qed.

Lemma fixed_subjects_injective_sample :
  get_plugin_id sdk_abc = Some "abc" /\
  "abc" ≠ "abd" /\
  make_intro_subject sdk_abc
    ≠ make_intro_subject
        {| config := Config_init ∅ (Some "x") (Some "abd") None None None;
           _closed := false |}.
Proof.
  assert (Hne : "abc" ≠ "abd") by discriminate.
  split; [reflexivity |]. split; [exact Hne |].
  exact (proj1 (fixed_subjects_injective_in_plugin sdk_abc
                  {| config := Config_init ∅ (Some "x") (Some "abd") None None None;
                     _closed := false |} "abc" "abd" eq_refl eq_refl Hne)).
Defined.

(** X10: across plugins the execution and form subjects are not
    injective: the action [m2] of plugin [p.m1] and the action [m1.m2]
    of plugin [p] share their execute subject and their form
    subject. *)
Theorem dotted_plugin_id_collides (sdk1 sdk2 : SorenSDK) (p m1 m2 : string) :
  get_plugin_id sdk1 = Some (p +:+ "." +:+ m1) ->
  get_plugin_id sdk2 = Some p ->
  make_action_cpu sdk1 m2 = make_action_cpu sdk2 (m1 +:+ "." +:+ m2) /\
  make_form_subject sdk1 m2 = make_form_subject sdk2 (m1 +:+ "." +:+ m2).
Proof.
  unfold get_plugin_id, make_action_cpu, make_form_subject.
  intros -> ->. simpl fmt. by rewrite !append_assoc.
Qed.

Lemma dotted_plugin_id_sample :
  make_action_cpu
    {| config := Config_init ∅ (Some "x") (Some "abc.scan") None None None;
       _closed := false |} "graph"
  = make_action_cpu sdk_abc "scan.graph".
Proof.
  exact (proj1 (dotted_plugin_id_collides
                  {| config := Config_init ∅ (Some "x") (Some "abc.scan") None None None;
                     _closed := false |} sdk_abc "abc" "scan" "graph"
                  eq_refl eq_refl)).
Defined.

End SubjectProps.

(** ** Dispatch of inbound messages *)

Module DispatchProps.

(** X11: when the connection accepts every subscription, [start]
    returns, and afterwards the settings and actions-list subjects are
    bound, the intro subject is bound when an intro was set, and every
    registered action is bound twice, on its form subject and on its
    execute subject, each with a callback for that very action; [start]
    has added two subscriptions per action, two for the settings and
    actions-list subjects, one more when settings are set, and those of
    the intro. *)
Theorem start_binds_every_action (env : Env) (self : Plugin.t) (w : World) :
  (forall tr s, on_subscribe env tr s = None) ->
  (Plugin.start env self w).1 = Ok tt /\
  (make_settings_subject (Plugin.sdk self), settings_callback)
    ∈ subs (Plugin.start env self w).2 /\
  (make_actions_list_subject (Plugin.sdk self), list_callback)
    ∈ subs (Plugin.start env self w).2 /\
  (is_Some (Plugin.intro self) ->
   (make_intro_subject (Plugin.sdk self), intro_callback)
     ∈ subs (Plugin.start env self w).2) /\
  (forall a, a ∈ Plugin.actions self ->
     (make_form_subject (Plugin.sdk self) (Action.method a), form_callback a)
       ∈ subs (Plugin.start env self w).2 /\
     (make_action_cpu (Plugin.sdk self) (Action.method a), request_callback a)
       ∈ subs (Plugin.start env self w).2) /\
  length (subs (Plugin.start env self w).2)
    = length (subs w) + length (intro_binds self) + 2
      + match Plugin.settings self with Some _ => 1 | None => 0 end
      + 2 * length (Plugin.actions self).
Proof.
  intros Hok.
  destruct (Registrar.binds_all_accepted env _ _ w Hok (Registrar.binds_start env self))
    as [Hres Hsubs].
  rewrite Hsubs. unfold start_binds, settings_binds, actions_binds.
  split; [exact Hres |].
  split; [rewrite !elem_of_app, !elem_of_cons; tauto |].
  split; [rewrite !elem_of_app, !elem_of_cons; tauto |].
  split; [| split].
  - intros [i Hi]. unfold intro_binds. rewrite Hi.
    rewrite !elem_of_app, !elem_of_cons. tauto.
  - intros a Ha.
    assert (Hin : forall x, x ∈ action_binds self a ->
              x ∈ flat_map (action_binds self) (Plugin.actions self)).
    { intros x Hx. apply list_elem_of_In, in_flat_map. exists a.
      split; by apply list_elem_of_In. }
    split; rewrite !elem_of_app, !elem_of_cons; right; right; right; right;
      apply Hin; unfold action_binds; rewrite !elem_of_cons; tauto.
  - rewrite !length_app. simpl.
    assert (Hlen : length (flat_map (action_binds self) (Plugin.actions self))
                   = 2 * length (Plugin.actions self)).
    { induction (Plugin.actions self) as [|a l IH]; simpl; [done | rewrite IH; lia]. }
    rewrite Hlen. destruct (Plugin.settings self); simpl; lia.
Qed.

Lemma start_binds_every_action_sample :
  (forall tr s, on_subscribe env_ok tr s = None) /\
  (Plugin.start env_ok plugin_full World_empty).1 = Ok tt /\
  ("soren.cpu.abc.prepare", request_callback action_prepare)
    ∈ subs (Plugin.start env_ok plugin_full World_empty).2 /\
  length (subs (Plugin.start env_ok plugin_full World_empty).2) = 6.
Proof.
  assert (Hok : forall tr s, on_subscribe env_ok tr s = None) by reflexivity.
  destruct (start_binds_every_action env_ok plugin_full World_empty Hok)
    as (Hres & _ & _ & _ & Hact & Hlen).
  split; [exact Hok |]. split; [exact Hres |].
  split; [| exact Hlen].
  apply (Hact action_prepare). apply elem_of_cons. by left.
Defined.





(** X14: a missing handler is answered differently by role.  An
    execute message for an action without a request handler gets no
    reply and changes nothing; a settings submission when the settings
    have no handler, like a requirements submission when the
    requirements have none, gets the reply
    [{"status":"not implemented"}] when it carries a reply subject, and
    makes the callback raise the transport's error when it carries
    none. *)
Theorem missing_handler_by_role (env : Env) (self : Plugin.t) (msg : Msg) (w : World) :
  (forall act, Action.request_handler act = None ->
     Plugin.run_callback env self (request_callback act) msg w = (Ok tt, w)) /\
  (forall s, Plugin.settings self = Some s -> Settings.handler s = None ->
     Plugin.run_callback env self submit_callback msg w
     = if String.eqb (reply msg) ""
       then (Raised (NatsError "no reply subject available"), w)
       else (Ok tt, {| subs := subs w;
                       trace := trace w ++ [EvRespond msg NOT_IMPLEMENTED] |})) /\
  (forall i r, Plugin.intro self = Some i -> PluginIntro.requirements i = Some r ->
     Requirements.handler r = None ->
     Plugin.run_callback env self req_callback msg w
     = if String.eqb (reply msg) ""
       then (Raised (NatsError "no reply subject available"), w)
       else (Ok tt, {| subs := subs w;
                       trace := trace w ++ [EvRespond msg NOT_IMPLEMENTED] |})).
Proof.
  unfold Plugin.run_callback, Plugin.run_request_callback, Plugin.run_submit_callback,
    Plugin.run_req_callback, respond.
  split; [| split].
  - by intros act ->.
  - intros s -> ->. by destruct (String.eqb (reply msg) "").
  - intros i r -> -> ->. by destruct (String.eqb (reply msg) "").
Qed.

Lemma missing_handler_sample :
  Plugin.run_callback env_ok plugin_abc (request_callback action_no_handler)
    execute_msg World_empty = (Ok tt, World_empty) /\
  replies (trace (Plugin.run_callback env_ok
                    (Plugin.set_settings plugin_abc settings_form None)
                    submit_callback execute_msg World_empty).2)
    = [NOT_IMPLEMENTED].
Proof.
  destruct (missing_handler_by_role env_ok plugin_abc execute_msg World_empty)
    as (Hexec & _).
  destruct (missing_handler_by_role env_ok
              (Plugin.set_settings plugin_abc settings_form None)
              execute_msg World_empty) as (_ & Hsubmit & _).
  split; [exact (Hexec action_no_handler eq_refl) |].
  by rewrite (Hsubmit settings_form eq_refl eq_refl).
Defined.

Lemma decode_action_dict (a : Action.t) :
  decode_action (Plugin.action_dict a) = Some (action_summary a).
Proof. unfold action_summary. by destruct a as [m t d [r i] f h]. Qed.

Lemma decode_actions_list (acts : list Action.t) :
  decode_actions (JList (map Plugin.action_dict acts)) = Some (map action_summary acts).
Proof.
  unfold decode_actions. induction acts as [|a acts IH]; [done |].
  cbn [map mapM]. rewrite decode_action_dict. simpl. by rewrite IH.
Qed.

(** X15: the actions-list reply to a request (a message with a reply
    subject) carries every registered action, in registration order: it
    is the serialisation of an array that reads back as the [method],
    [title], [description] and [icon] of the actions, first those the
    plugin had, then those of each [add_actions], in the order they
    were added; [set_actions] replaces them all. *)
Theorem actions_list_round_trip (env : Env) (self : Plugin.t)
    (l1 l2 : list Action.t) (msg : Msg) (w : World) :
  reply msg ≠ "" ->
  exists listed,
    Plugin.run_callback env (Plugin.add_actions (Plugin.add_actions self l1) l2)
      list_callback msg w
    = (Ok tt, {| subs := subs w;
                 trace := trace w ++ [EvRespond msg (json_dumps env listed)] |}) /\
    decode_actions listed
    = Some (map action_summary (Plugin.actions self ++ l1 ++ l2)) /\
    exists replaced,
      Plugin.run_callback env (Plugin.set_actions (Plugin.add_actions self l1) l2)
        list_callback msg w
      = (Ok tt, {| subs := subs w;
                   trace := trace w ++ [EvRespond msg (json_dumps env replaced)] |}) /\
      decode_actions replaced = Some (map action_summary l2).
Proof.
  intros Hreply.
  unfold Plugin.run_callback, Plugin.run_list_callback.
  eexists. split; [by apply respond_with_reply |]. split.
  - etrans; [apply decode_actions_list |]. simpl. by rewrite <- app_assoc.
  - eexists. split; [by apply respond_with_reply |]. apply decode_actions_list.
Qed.

Lemma actions_list_sample :
  reply execute_msg ≠ "" /\
  exists listed,
    replies (trace (Plugin.run_callback env_ok
                      (Plugin.add_actions (Plugin.add_actions plugin_abc [action_prepare])
                         [action_async_none])
                      list_callback execute_msg World_empty).2)
    = [render listed] /\
    decode_actions listed
    = Some [action_summary action_prepare; action_summary action_async_none].
Proof.
  assert (Hreply : reply execute_msg ≠ "") by discriminate.
  split; [exact Hreply |].
  destruct (actions_list_round_trip env_ok plugin_abc [action_prepare]
              [action_async_none] execute_msg World_empty Hreply)
    as (listed & Hrun & Hdec & _).
  exists listed. split; [by rewrite Hrun | exact Hdec].
Defined.

(** X24: which handler answers a submission.  A handler passed to
    [set_intro] (when the intro has requirements) or to [set_settings]
    takes the place of the one the [Requirements] or [Settings] object
    came with; passing none keeps that one.  The submission is then
    dispatched to it exactly as an execute message is dispatched to an
    action's request handler. *)
Theorem handler_argument_takes_precedence (env : Env) (self : Plugin.t)
    (h h0 : Handler) (act act0 : Action.t) (msg : Msg) (w : World) :
  Action.request_handler act = Some h ->
  Action.request_handler act0 = Some h0 ->
  (forall i r, PluginIntro.requirements i = Some r ->
     Plugin.run_callback env (Plugin.set_intro self i (Some h)) req_callback msg w
     = Plugin.run_callback env self (request_callback act) msg w) /\
  (forall i r, PluginIntro.requirements i = Some r -> Requirements.handler r = Some h0 ->
     Plugin.run_callback env (Plugin.set_intro self i None) req_callback msg w
     = Plugin.run_callback env self (request_callback act0) msg w) /\
  (forall s,
     Plugin.run_callback env (Plugin.set_settings self s (Some h)) submit_callback msg w
     = Plugin.run_callback env self (request_callback act) msg w) /\
  (forall s, Settings.handler s = Some h0 ->
     Plugin.run_callback env (Plugin.set_settings self s None) submit_callback msg w
     = Plugin.run_callback env self (request_callback act0) msg w).
Proof.
  intros Hact Hact0.
  unfold Plugin.run_callback, Plugin.run_req_callback, Plugin.run_submit_callback,
    Plugin.run_request_callback, Plugin.set_intro, Plugin.set_settings.
  rewrite Hact, Hact0. simpl.
  split; [| split; [| split]].
  - intros i r Hr. by repeat (rewrite ?Hr; simpl).
  - intros i r Hr Hh. by repeat (rewrite ?Hr, ?Hh; simpl).
  - done.
  - intros s Hh. by rewrite Hh.
Qed.

Lemma handler_argument_sample :
  Action.request_handler action_async_none = Some handler_async_none /\
  Action.request_handler action_prepare = Some sample_handler /\
  replies (trace (Plugin.run_callback env_ok
                    (Plugin.set_intro plugin_abc intro_with_requirements
                       (Some handler_async_none))
                    req_callback execute_msg World_empty).2)
    = ["None"].
Proof.
  destruct (handler_argument_takes_precedence env_ok plugin_abc handler_async_none
              sample_handler action_async_none action_prepare execute_msg World_empty
              eq_refl eq_refl) as (Hreq & _).
  split; [reflexivity |]. split; [reflexivity |].
  by rewrite (Hreq intro_with_requirements requirements_form eq_refl).
Defined.

(** X25: the intro reply to a request (a message with a reply
    subject) reads back as what was declared: the name, author and
    version of the intro and, exactly when it has requirements, their
    reply subject, UI and schema; the handler is no part of it, so the
    reply is the same whatever handler [set_intro] was given. *)
Theorem intro_reply_round_trip (env : Env) (self : Plugin.t) (i : PluginIntro.t)
    (h : option Handler) (msg : Msg) (w : World) :
  reply msg ≠ "" ->
  exists shown,
    Plugin.run_callback env (Plugin.set_intro self i h) intro_callback msg w
    = (Ok tt, {| subs := subs w;
                 trace := trace w ++ [EvRespond msg (json_dumps env shown)] |}) /\
    shown = Plugin.intro_dict i /\
    decode_intro shown
    = Some (PluginIntro.name i, PluginIntro.author i, PluginIntro.version i,
            (fun r => (Requirements.reply_to r, Requirements.jsonui r,
                       Requirements.jsonschema r)) <$> PluginIntro.requirements i).
Proof.
  intros Hreply.
  exists (Plugin.intro_dict i). split; [| split; [reflexivity |]].
  - unfold Plugin.run_callback, Plugin.run_intro_callback, Plugin.set_intro. simpl.
    rewrite respond_with_reply by exact Hreply.
    destruct (PluginIntro.requirements i) as [r|] eqn:Hr; [destruct h |];
      unfold Plugin.intro_dict; simpl; rewrite ?Hr; reflexivity.
  - unfold Plugin.intro_dict.
    by destruct (PluginIntro.requirements i) as [[]|].
Qed.

Lemma intro_reply_sample :
  reply execute_msg ≠ "" /\
  exists shown,
    replies (trace (Plugin.run_callback env_ok
                      (Plugin.set_intro plugin_abc intro_with_requirements
                         (Some sample_handler))
                      intro_callback execute_msg World_empty).2)
    = [render shown] /\
    decode_intro shown
    = Some ("Code Analysis Plugin", "Soren Team", "1.1.1",
            Some ("requirements.submit", JDict [("type", JStr "Control")],
                  JDict [("type", JStr "object")])).
Proof.
  assert (Hreply : reply execute_msg ≠ "") by discriminate.
  split; [exact Hreply |].
  destruct (intro_reply_round_trip env_ok plugin_abc intro_with_requirements
              (Some sample_handler) execute_msg World_empty Hreply)
    as (shown & Hrun & _ & Hdec).
  exists shown. split; [by rewrite Hrun | exact Hdec].
Defined.

End DispatchProps.

(** ** Job progress reporter, further *)

Module ProgressProps.


















(** X17: a failure of the first request that is not a no-responder
    failure (a timeout, say) is not retried: [progress] makes that one
    request, logs the error, and returns the exception as a value, with
    no delay. *)
Theorem progress_other_error_not_retried (env : Env) (self : Plugin.t)
    (jobID : string) (command : Command) (data : JobProgress.t) (w : World) (e : exn) :
  on_request env (trace w)
    (make_job_subject (Plugin.sdk self) jobID (Command_value command))
    (json_dumps env (Plugin.data_dict data)) = Raised e ->
  is_NoRespondersError e = false ->
  Plugin.progress env self jobID command data w
  = (Ok (Plugin.RetExc e),
     {| subs := subs w;
        trace := trace w
          ++ [EvRequest (make_job_subject (Plugin.sdk self) jobID (Command_value command))
                (json_dumps env (Plugin.data_dict data)) 3 None;
              EvLog SevError (ProgressError command e)] |}).
Proof.
  intros Hreq He. unfold Plugin.progress. cbn [Plugin.progress_loop seq].
  unfold try_except, bind at 1, request. rewrite Hreq, He. cbn.
  by rewrite <- app_assoc.
Qed.

Lemma progress_other_error_sample :
  (Plugin.progress env_timeout plugin_abc "j1" PROGRESS half_way World_empty).1
    = Ok (Plugin.RetExc TimeoutError) /\
  length (requests (trace (Plugin.progress env_timeout plugin_abc "j1" PROGRESS
                             half_way World_empty).2)) = 1 /\
  sleeps (trace (Plugin.progress env_timeout plugin_abc "j1" PROGRESS
                   half_way World_empty).2) = [].
Proof.
  rewrite (progress_other_error_not_retried env_timeout plugin_abc "j1" PROGRESS
             half_way World_empty TimeoutError eq_refl eq_refl).
  by repeat split.
Defined.

(** X18: when the first request finds no responder and the second is
    answered, [progress] returns the response after one delay of 1,
    having flushed and logged the answer; the first failure leaves no
    log line at all. *)
Theorem progress_retry_then_answer (env : Env) (self : Plugin.t) (jobID : string)
    (command : Command) (data : JobProgress.t) (w : World) (msg : Msg) (text : string) :
  let sub := make_job_subject (Plugin.sdk self) jobID (Command_value command) in
  let body := json_dumps env (Plugin.data_dict data) in
  let req := EvRequest sub body 3 None in
  on_request env (trace w) sub body = Raised NoRespondersError ->
  on_request env (trace w ++ [req; EvSleep 1]) sub body = Ok msg ->
  on_flush env (trace w ++ [req; EvSleep 1; req]) = None ->
  utf8_decode env (Models.data msg) = Some text ->
  Plugin.progress env self jobID command data w
  = (Ok (Plugin.RetMsg msg),
     {| subs := subs w;
        trace := trace w
          ++ [req; EvSleep 1; req; EvFlush;
              EvLog SevInfo
                (ProgressSent (if String.eqb (Models.data msg) "" then "No response"
                               else text))] |}).
Proof.
  intros sub body req H1 H2 Hflush Hdec.
  unfold Plugin.progress. cbn [Plugin.progress_loop seq].
  fold sub. fold body.
  unfold try_except, bind, request, flush, decode. rewrite H1. cbn.
  rewrite <- ?app_assoc. cbn. fold req. rewrite H2. cbn.
  rewrite <- ?app_assoc. cbn. fold req. rewrite Hflush. cbn.
  destruct (String.eqb (Models.data msg) ""); cbn; rewrite ?Hdec; cbn;
    by rewrite <- ?app_assoc.
Qed.

Lemma progress_retry_sample :
  (Plugin.progress env_late_responder plugin_abc "j1" PROGRESS half_way World_empty).1
    = Ok (Plugin.RetMsg {| subject := "soren.cpu.abc.j1.progress"; reply := "";
                           data := "ack" |}) /\
  attempt_logs (trace (Plugin.progress env_late_responder plugin_abc "j1" PROGRESS
                         half_way World_empty).2)
    = [[]; [SevInfo]] /\
  sleeps (trace (Plugin.progress env_late_responder plugin_abc "j1" PROGRESS
                   half_way World_empty).2) = [1%Z].
Proof.
  rewrite (progress_retry_then_answer env_late_responder plugin_abc "j1" PROGRESS
             half_way World_empty
             {| subject := "soren.cpu.abc.j1.progress"; reply := ""; data := "ack" |}
             "ack" eq_refl eq_refl eq_refl eq_refl).
  by repeat split.
Defined.

(** X19: an answer whose data is not empty and not valid UTF-8 is
    lost: the request was answered and flushed, yet [progress] logs an
    error and returns [UnicodeDecodeError] in place of the response,
    without retrying. *)
Theorem progress_undecodable_answer (env : Env) (self : Plugin.t) (jobID : string)
    (command : Command) (data : JobProgress.t) (w : World) (msg : Msg) :
  let sub := make_job_subject (Plugin.sdk self) jobID (Command_value command) in
  let body := json_dumps env (Plugin.data_dict data) in
  on_request env (trace w) sub body = Ok msg ->
  on_flush env (trace w ++ [EvRequest sub body 3 None]) = None ->
  Models.data msg ≠ "" ->
  utf8_decode env (Models.data msg) = None ->
  Plugin.progress env self jobID command data w
  = (Ok (Plugin.RetExc UnicodeDecodeError),
     {| subs := subs w;
        trace := trace w
          ++ [EvRequest sub body 3 None; EvFlush;
              EvLog SevError (ProgressError command UnicodeDecodeError)] |}).
Proof.
  intros sub body Hreq Hflush Hdata Hdec.
  unfold Plugin.progress. cbn [Plugin.progress_loop seq].
  fold sub. fold body.
  unfold try_except, bind, request, flush, decode. rewrite Hreq. cbn.
  rewrite Hflush. cbn.
  apply String.eqb_neq in Hdata. rewrite Hdata, Hdec. cbn.
  by rewrite <- !app_assoc.
Qed.

Lemma progress_undecodable_sample :
  Plugin.progress env_binary_ack plugin_abc "j1" PROGRESS half_way World_empty
  = (Ok (Plugin.RetExc UnicodeDecodeError),
     {| subs := [];
        trace := [EvRequest "soren.cpu.abc.j1.progress"
                    (render (Plugin.data_dict half_way)) 3 None;
                  EvFlush;
                  EvLog SevError (ProgressError PROGRESS UnicodeDecodeError)] |}).
Proof.
  apply (progress_undecodable_answer env_binary_ack plugin_abc "j1" PROGRESS half_way
           World_empty
           {| subject := "soren.cpu.abc.j1.progress"; reply := ""; data := "ack" |});
    [reflexivity | reflexivity | discriminate | reflexivity].
Defined.

(** X20: optional payloads that are [None] or empty are left out of
    the bodies the SDK builds: the progress body has no [details], the
    event body no [details] and the settings reply no [data], and the
    bodies are then the same as with [None]; a non-empty one is carried
    under its key.  So [done] with an empty dict is [progress] with no
    details at all. *)
Theorem empty_payloads_left_out (env : Env) (self : Plugin.t) (jobID : string)
    (w : World) (n : Z) (f : Frame.t) (ev : PluginEvent.t) (st : Settings.t)
    (x : pydict) :
  Plugin.data_dict (JobProgress.mk n f (Some [])) = Plugin.data_dict (JobProgress.mk n f None) /\
  json_field (Plugin.data_dict (JobProgress.mk n f None)) "details" = None /\
  (x ≠ [] ->
   json_field (Plugin.data_dict (JobProgress.mk n f (Some x))) "details" = Some (JDict x)) /\
  (truthy_dict (PluginEvent.details ev) = false ->
   json_field (EventLogger.event_dict ev) "details" = None) /\
  (PluginEvent.details ev = Some x -> x ≠ [] ->
   json_field (EventLogger.event_dict ev) "details" = Some (JDict x)) /\
  (truthy_dict (Settings.data st) = false ->
   json_field (Plugin.settings_dict st) "data" = None) /\
  (Settings.data st = Some x -> x ≠ [] ->
   json_field (Plugin.settings_dict st) "data" = Some (JDict x)) /\
  Plugin.done env self jobID [] w
  = Plugin.progress env self jobID PROGRESS
      (JobProgress.mk 100 (Frame.mk "Completed" "Job completed successfully") None) w.
Proof.
  split; [reflexivity |]. split; [reflexivity |].
  split; [by destruct x |].
  split; [intros H; unfold EventLogger.event_dict; by rewrite H |].
  split; [intros H Hx; unfold EventLogger.event_dict; rewrite H; by destruct x |].
  split; [intros H; unfold Plugin.settings_dict; by rewrite H |].
  split; [intros H Hx; unfold Plugin.settings_dict; rewrite H; by destruct x |].
  reflexivity.
Qed.

End ProgressProps.

(** ** Event logger, further *)

Module EventProps.






End EventProps.
